(** * Intent router, memory manager and next-free-slot search

    A shallow embedding of the routing code of [app.py], the memory
    wrapper of [mem0_manager.py] and the slot search of
    [calendar_tools.py] / [mcp_calendar_client.py], with the properties
    the specification states about them.

    Conventions of the embedding.
    - A Python [str] is a [string]; a character is a code point below
      256, so [lower] and [isspace] follow Python on that range.
    - A [datetime] is a day count (the proleptic ordinal) and a time of
      day; the code never looks at year, month or day on their own.
    - A [timedelta] is a number of microseconds.
    - Calls to the two services are recorded in a log, and their answers
      are supplied by a [gateway] of answer functions.
    - A Python exception is a value [Raise e] of the [result] type. *)

From Stdlib Require Import ZArith List String Ascii Bool Lia QArith Arith.
Import ListNotations.

Open Scope string_scope.

(** ** Python string primitives *)

Module Py.

(** [c.lower()] on a code point below 256: the letters A..Z and the
    Latin-1 capitals (0xC0..0xDE without the multiplication sign). *)
Definition lower_char (c : ascii) : ascii :=
  let n := nat_of_ascii c in
  if ((65 <=? n) && (n <=? 90))%nat
     || ((192 <=? n) && (n <=? 222) && negb (n =? 215))%nat
  then ascii_of_nat (n + 32)
  else c.

(** [s.lower()] *)
Fixpoint lower (s : string) : string :=
  match s with
  | EmptyString => EmptyString
  | String c tl => String (lower_char c) (lower tl)
  end.

(** [c.isspace()] on a code point below 256: tab .. carriage return,
    the four separators 0x1C..0x1F, space, NEL and no-break space. *)
Definition isspace (c : ascii) : bool :=
  let n := nat_of_ascii c in
  (((9 <=? n) && (n <=? 13)) || ((28 <=? n) && (n <=? 32))
   || (n =? 133) || (n =? 160))%nat.

(** [s.lstrip()] *)
Fixpoint lstrip (s : string) : string :=
  match s with
  | EmptyString => EmptyString
  | String c tl => if isspace c then lstrip tl else s
  end.

(** [s.rstrip()] *)
Fixpoint rstrip (s : string) : string :=
  match s with
  | EmptyString => EmptyString
  | String c tl =>
      match rstrip tl with
      | EmptyString => if isspace c then EmptyString else String c EmptyString
      | r => String c r
      end
  end.

(** [s.strip()] *)
Definition strip (s : string) : string := rstrip (lstrip s).

(** [s.startswith(p)] *)
Fixpoint startswith (s p : string) : bool :=
  match p, s with
  | EmptyString, _ => true
  | String _ _, EmptyString => false
  | String a p', String b s' => Ascii.eqb a b && startswith s' p'
  end.

(** [p in s] for two strings *)
Fixpoint contains (s p : string) : bool :=
  startswith s p
  || match s with
     | EmptyString => false
     | String _ tl => contains tl p
     end.

(** The scan of [s.replace(old, '')]: [skip] characters of a match are
    still to be dropped before the scan looks for [old] again. *)
Fixpoint remove_from (old : string) (skip : nat) (s : string) : string :=
  match s with
  | EmptyString => EmptyString
  | String c tl =>
      match skip with
      | S k => remove_from old k tl
      | O =>
          if startswith s old
          then remove_from old (String.length old - 1) tl
          else String c (remove_from old 0 tl)
      end
  end.

(** [s.replace(old, '')]: every occurrence of [old], found from the left
    and without overlap, is deleted. *)
Definition replace_empty (s old : string) : string :=
  match old with
  | EmptyString => s
  | _ => remove_from old 0 s
  end.

(** [s.split(sep, maxsplit)] for a one-character separator *)
Fixpoint split (sep : ascii) (maxsplit : nat) (s : string) : list string :=
  match s with
  | EmptyString => [EmptyString]
  | String c tl =>
      if Ascii.eqb c sep then
        match maxsplit with
        | O => [s]
        | S m => EmptyString :: split sep m tl
        end
      else
        match split sep maxsplit tl with
        | h :: r => String c h :: r
        | [] => [String c EmptyString]
        end
  end.

(** [s[n:]] *)
Fixpoint drop (n : nat) (s : string) : string :=
  match n, s with
  | O, _ => s
  | S _, EmptyString => EmptyString
  | S k, String _ tl => drop k tl
  end.

(** [s in xs] for a list of strings *)
Definition in_list (s : string) (xs : list string) : bool :=
  existsb (String.eqb s) xs.

(** [any(f(x) for x in xs)] *)
Definition any {A} (f : A -> bool) (xs : list A) : bool := existsb f xs.

(** [xs[i]] where the index is known to be in range; [""] otherwise *)
Definition item (xs : list string) (i : nat) : string := nth i xs EmptyString.

End Py.

(** ** Exceptions *)

Inductive exn_class :=
| HttpError | ValueError | TypeError | KeyError | OverflowError | OtherError.

(** An exception object: its class and [str(e)]. Every class here derives
    from [Exception], so [except Exception] catches all of them. *)
Record exn := Exn { exn_class_of : exn_class; exn_str : string }.

Inductive result (A : Type) :=
| Ok (a : A)
| Raise (e : exn).
Arguments Ok {A} a.
Arguments Raise {A} e.

Definition rbind {A B} (r : result A) (k : A -> result B) : result B :=
  match r with
  | Ok a => k a
  | Raise e => Raise e
  end.

Declare Scope result_scope.
Delimit Scope result_scope with result.
Notation "x <- r ;; k" := (rbind r (fun x => k))
  (at level 61, r at next level, right associativity) : result_scope.

Definition is_http_error (e : exn) : bool :=
  match exn_class_of e with HttpError => true | _ => false end.

(** ** datetime and timedelta *)

Module DateTime.

Open Scope Z_scope.

(** [day] is [date.toordinal()]. *)
Record datetime := mkDatetime {
  day : Z; hour : Z; minute : Z; second : Z; microsecond : Z }.

Definition MAXORDINAL : Z := 3652059.

Definition valid_time (d : datetime) : Prop :=
  0 <= hour d < 24 /\ 0 <= minute d < 60 /\ 0 <= second d < 60
  /\ 0 <= microsecond d < 1000000.

Definition valid (d : datetime) : Prop :=
  1 <= day d <= MAXORDINAL /\ valid_time d.

Definition in_range (lo x hi : Z) : bool := (lo <=? x) && (x <=? hi).

(** [d.replace(hour=.., minute=.., second=.., microsecond=..)]: a field
    given as [None] keeps its value; the new time is range-checked in the
    order hour, minute, second, microsecond. *)
Definition replace (d : datetime) (h m s us : option Z) : result datetime :=
  let h' := match h with Some v => v | None => hour d end in
  let m' := match m with Some v => v | None => minute d end in
  let s' := match s with Some v => v | None => second d end in
  let us' := match us with Some v => v | None => microsecond d end in
  if negb (in_range 0 h' 23) then Raise (Exn ValueError "hour must be in 0..23")
  else if negb (in_range 0 m' 59) then Raise (Exn ValueError "minute must be in 0..59")
  else if negb (in_range 0 s' 59) then Raise (Exn ValueError "second must be in 0..59")
  else if negb (in_range 0 us' 999999)
       then Raise (Exn ValueError "microsecond must be in 0..999999")
  else Ok (mkDatetime (day d) h' m' s' us').

(** A timedelta, in microseconds. *)
Definition timedelta := Z.

Definition US_PER_SECOND : Z := 1000000.
Definition US_PER_MINUTE : Z := 60000000.
Definition US_PER_HOUR : Z := 3600000000.
Definition US_PER_DAY : Z := 86400000000.

Definition timedelta_days (n : Z) : timedelta := n * US_PER_DAY.
Definition timedelta_hours (n : Z) : timedelta := n * US_PER_HOUR.

(** [str(n)] for an integer: its decimal digits after the sign. *)
Fixpoint decimal_digits (fuel : nat) (n : Z) (acc : string) : string :=
  match fuel with
  | O => acc
  | S fuel' =>
      let acc' := String (ascii_of_nat (48 + Z.to_nat (n mod 10))) acc in
      if n / 10 =? 0 then acc' else decimal_digits fuel' (n / 10) acc'
  end.

Definition str_int (n : Z) : string :=
  let digits :=
    decimal_digits (S (Z.to_nat (Z.log2 (Z.abs n)))) (Z.abs n) EmptyString in
  if n <? 0 then "-" ++ digits else digits.

(** [timedelta(minutes=m)] for an integer [m]: the normalised day count
    must have magnitude at most 999999999. The text of the exception is
    CPython's: a day count that does not fit a C int is refused before
    its magnitude is looked at. *)
Definition timedelta_minutes (m : Z) : result timedelta :=
  let days := m / 1440 in
  if in_range (-999999999) days 999999999
  then Ok (m * US_PER_MINUTE)
  else if in_range (-2147483648) days 2147483647
  then Raise (Exn OverflowError
                ("days=" ++ str_int days ++ "; must have magnitude <= 999999999"))
  else Raise (Exn OverflowError "Python int too large to convert to C int").

(** Microseconds since the start of day 0. *)
Definition to_us (d : datetime) : Z :=
  (((day d * 24 + hour d) * 60 + minute d) * 60 + second d) * 1000000
  + microsecond d.

Definition of_us (t : Z) : datetime :=
  let s := t / 1000000 in
  let m := s / 60 in
  let h := m / 60 in
  mkDatetime (h / 24) (h mod 24) (m mod 60) (s mod 60) (t mod 1000000).

(** The sum of a datetime and a timedelta, without the range check. *)
Definition shift (d : datetime) (td : timedelta) : datetime :=
  of_us (to_us d + td).

(** [d + td]: the resulting day must lie in 1..MAXORDINAL. *)
Definition add (d : datetime) (td : timedelta) : result datetime :=
  let r := shift d td in
  if in_range 1 (day r) MAXORDINAL then Ok r
  else Raise (Exn OverflowError "date value out of range").

(** [a < b]: the fields are compared in order, as tuples. *)
Definition ltb (a b : datetime) : bool :=
  match day a ?= day b with
  | Lt => true | Gt => false
  | Eq =>
    match hour a ?= hour b with
    | Lt => true | Gt => false
    | Eq =>
      match minute a ?= minute b with
      | Lt => true | Gt => false
      | Eq =>
        match second a ?= second b with
        | Lt => true | Gt => false
        | Eq => microsecond a <? microsecond b
        end
      end
    end
  end.

End DateTime.

(** ** The calendar client (calendar_tools.py) *)

Module Calendar.

Import DateTime.
Open Scope Z_scope.
Open Scope result_scope.

(** One entry of a [busy] list of the free/busy answer. *)
Record busy_slot := { busy_start : string; busy_end : string }.

(** The value under a calendar id: a dict that may hold a [busy] key. *)
Record calendar_busy := { busy : option (list busy_slot) }.

(** The free/busy answer, a dict: what matters is whether it has the key
    [calendars], and what that maps calendar ids to. The empty dict has
    [calendars = None]. *)
Record free_busy := { calendars : option (list (string * calendar_busy)) }.

Definition empty_dict : free_busy := {| calendars := None |}.

(** [d.get(key, default)] on a dict given as an association list *)
Fixpoint dict_get {V} (d : list (string * V)) (key : string) (default : V) : V :=
  match d with
  | [] => default
  | (k, v) :: rest => if String.eqb k key then v else dict_get rest key default
  end.

(** [GoogleCalendarClient]: the [authenticated] flag, the outcome of a
    call to [authenticate()], and the answer of the provider's free/busy
    query for a range and a list of calendar ids. The flag is set by a
    successful [authenticate()]; the functions below read it and do not
    write it back, since a second attempt has the same outcome. *)
Record client := {
  authenticated : bool;
  authenticate : bool;
  freebusy_query : datetime -> datetime -> list string -> result free_busy }.

(** [get_free_busy_info(start_time, end_time)] *)
Definition get_free_busy_info (c : client) (start_time end_time : datetime)
  : result free_busy :=
  if negb (authenticated c) && negb (authenticate c) then Ok empty_dict
  else
    match freebusy_query c start_time end_time ["primary"] with
    | Ok free_busy_result => Ok free_busy_result
    | Raise e => if is_http_error e then Ok empty_dict else Raise e
    end.

(** [is_available(start_time, end_time)] *)
Definition is_available (c : client) (start_time end_time : datetime)
  : result bool :=
  fb <- get_free_busy_info c start_time end_time ;;
  match calendars fb with
  | None => Ok true
  | Some cals =>
      let calendar_busy := dict_get cals "primary" {| busy := None |} in
      let busy_slots :=
        match busy calendar_busy with Some l => l | None => [] end in
      Ok (Nat.eqb (List.length busy_slots) 0)
  end.

(** The first part of [get_next_free_slot]: [now] without seconds, moved
    to the half hour or to the next hour. *)
Definition round_up (now : datetime) : result datetime :=
  current_check <- replace now None None (Some 0) (Some 0) ;;
  if minute current_check <? 30
  then replace current_check None (Some 30) None None
  else replace current_check (Some (hour current_check + 1)) (Some 0) None None.

(** The number of one-hour steps from [current_check] that stay strictly
    before [check_end]; the [while] loop runs at most this often. *)
Definition steps (check_end current_check : datetime) : nat :=
  Z.to_nat ((to_us check_end - to_us current_check + US_PER_HOUR - 1)
            / US_PER_HOUR).

(** The [while current_check < check_end] loop; [n] bounds the number of
    iterations and is never used up when it is at least [steps]
    (lemma [search_loop]). *)
Fixpoint slot_loop (c : client) (duration_minutes : Z) (check_end : datetime)
    (n : nat) (current_check : datetime) : result (option datetime) :=
  if ltb current_check check_end then
    match n with
    | O => Ok None
    | S n' =>
        td <- timedelta_minutes duration_minutes ;;
        slot_end <- add current_check td ;;
        free <- is_available c current_check slot_end ;;
        if free then Ok (Some current_check)
        else
          next <- add current_check (timedelta_hours 1) ;;
          slot_loop c duration_minutes check_end n' next
    end
  else Ok None.

Definition search (c : client) (duration_minutes : Z)
    (check_end current_check : datetime) : result (option datetime) :=
  slot_loop c duration_minutes check_end (steps check_end current_check)
    current_check.

(** [get_next_free_slot(duration_minutes)], with [now] the reading of
    [datetime.now()]. *)
Definition get_next_free_slot (c : client) (now : datetime)
    (duration_minutes : Z) : result (option datetime) :=
  check_end <- add now (timedelta_days 7) ;;
  current_check <- round_up now ;;
  search c duration_minutes check_end current_check.

(** The dict returned by the tool [get_next_free_slot] of
    mcp_calendar_client.py, by its [message]. *)
Inductive slot_answer :=
| AuthenticationRequired
| NextAvailableSlot (duration_minutes : Z) (next_slot : datetime)
| NoSlotFound (duration_minutes : Z)
| FailedToFindFreeSlot (str_e : string).

(** The tool [get_next_free_slot(data)] of mcp_calendar_client.py *)
Definition tool_get_next_free_slot (c : client) (now : datetime)
    (duration_minutes : Z) : slot_answer :=
  if negb (authenticated c) && negb (authenticate c)
  then AuthenticationRequired
  else
    match get_next_free_slot c now duration_minutes with
    | Ok (Some next_slot) => NextAvailableSlot duration_minutes next_slot
    | Ok None => NoSlotFound duration_minutes
    | Raise e => FailedToFindFreeSlot (exn_str e)
    end.

(** The [k]-th candidate start instant: [k] one-hour steps after [b]. *)
Definition candidate (b : datetime) (k : nat) : datetime :=
  shift b (timedelta_hours (Z.of_nat k)).

(** The judgement of the loop body on a candidate: the window end is
    [current_check + timedelta(minutes=duration_minutes)]. *)
Definition judged (c : client) (duration_minutes : Z) (cur : datetime)
  : result bool :=
  td <- timedelta_minutes duration_minutes ;;
  slot_end <- add cur td ;;
  is_available c cur slot_end.

(** The busy intervals that a free/busy answer lists for the primary
    calendar: none when the answer has no [calendars] key, no [primary]
    entry or no [busy] key. *)
Definition reported_busy (fb : free_busy) : list busy_slot :=
  match calendars fb with
  | None => []
  | Some cals =>
      match busy (dict_get cals "primary" {| busy := None |}) with
      | Some l => l
      | None => []
      end
  end.

(** Sample inputs: 2026-11-04 at 23:45:10 and at 10:12:40, a calendar
    with no busy interval, one whose provider fails with an HTTP error,
    and one that is busy until the end of 2026-11-05. *)
Definition late_evening : datetime := mkDatetime 739924 23 45 10 0.
Definition mid_morning : datetime := mkDatetime 739924 10 12 40 0.

Definition no_busy : free_busy :=
  {| calendars := Some [("primary", {| busy := Some [] |})] |}.
Definition one_busy : free_busy :=
  {| calendars :=
       Some [("primary",
              {| busy := Some [ {| busy_start := "2026-11-04T00:00:00Z";
                                   busy_end := "2026-11-06T00:00:00Z" |} ] |})] |}.

Definition always_free : client :=
  {| authenticated := true; authenticate := true;
     freebusy_query := fun _ _ _ => Ok no_busy |}.
Definition provider_down : client :=
  {| authenticated := true; authenticate := true;
     freebusy_query := fun _ _ _ => Raise (Exn HttpError "503") |}.
Definition busy_two_days : client :=
  {| authenticated := true; authenticate := true;
     freebusy_query := fun start_time _ _ =>
       if day start_time <=? 739925 then Ok one_busy else Ok no_busy |}.

End Calendar.

(** ** Calls to the services, and the monad of the handlers *)

Module Gateway.

Import DateTime.

(** A request that leaves the process: a method of the mem0 client, or a
    calendar tool of mcp_calendar_client.py. *)
Inductive call :=
| MemAdd (user_id memory_text memory_type : string)
| MemGetAll (user_id : string) (limit offset : Z)
| MemSearch (query user_id : string) (limit : Z)
| MemUpdate (memory_id updated_text : string)
| MemDelete (memory_id : string)
| MemDeleteAll (user_id : string)
| CalTodaysEvents
| CalWeeklyEvents
| CalUpcomingEvents
| CalSearchEvents (query : string) (max_results : Z)
| CalCheckAvailability (start_time end_time : datetime)
| CalNextFreeSlot (duration_minutes : Z).

(** A computation that may call the services and may raise: it maps the
    log of the calls made so far to its outcome and the extended log. *)
Definition M (A : Type) : Type := list call -> result A * list call.

Definition ret {A} (a : A) : M A := fun log => (Ok a, log).

Definition raise {A} (e : exn) : M A := fun log => (Raise e, log).

Definition bind {A B} (m : M A) (k : A -> M B) : M B :=
  fun log =>
    match m log with
    | (Ok a, log') => k a log'
    | (Raise e, log') => (Raise e, log')
    end.

(** [try: m except Exception as e: handler(e)] *)
Definition try_except {A} (m : M A) (handler : exn -> M A) : M A :=
  fun log =>
    match m log with
    | (Ok a, log') => (Ok a, log')
    | (Raise e, log') => handler e log'
    end.

(** A call [c] whose answer is [answer]. *)
Definition invoke {A} (c : call) (answer : result A) : M A :=
  fun log => (answer, (log ++ [c])%list).

(** A computation that calls nothing. *)
Definition lift {A} (r : result A) : M A := fun log => (r, log).

(** The outcome and the calls of a computation started on an empty log. *)
Definition run {A} (m : M A) : result A * list call := m [].

End Gateway.

Declare Scope gateway_scope.
Delimit Scope gateway_scope with gateway.
Notation "x <~ m ;; k" := (Gateway.bind m (fun x => k))
  (at level 61, m at next level, right associativity) : gateway_scope.

(** ** The memory manager (mem0_manager.py) *)

Module Memory.

Import Gateway.
Open Scope gateway_scope.

(** A memory record as the mem0 service returns it: a dict of which the
    code reads the keys [id], [memory], [categories] and [score]. A key
    that is absent is [None]. A score is a finite float, taken here as
    the rational it denotes; comparing floats compares these. *)
Record memory := {
  mem_id : option string;
  mem_memory : option string;
  mem_categories : option (list string);
  mem_score : option Q }.

(** What [get_all] and [search] hand back: a dict, with or without the
    key [results], or a plain list. *)
Inductive memories_value :=
| DictValue (results : option (list memory))
| ListValue (items : list memory).

(** [v['results']] *)
Definition subscript_results (v : memories_value) : result (list memory) :=
  match v with
  | DictValue (Some l) => Ok l
  | DictValue None => Raise (Exn KeyError "'results'")
  | ListValue _ =>
      Raise (Exn TypeError "list indices must be integers or slices, not str")
  end.

(** The mem0 client: the answer of each method. *)
Record memory_client := {
  client_add : string -> string -> string -> result unit;
  client_get_all : string -> Z -> Z -> result memories_value;
  client_search : string -> string -> Z -> result memories_value;
  client_update : string -> string -> result unit;
  client_delete : string -> result unit;
  client_delete_all : string -> result unit }.

(** The dicts [{"success": True, ...}] and [{"success": False, "error": ..}] *)
Inductive outcome :=
| Success
| Failure (error : string).

Section MemoryManager.

Variable memory_client : memory_client.

(** [add_memory(user_id, memory_text, memory_type)] *)
Definition add_memory (user_id memory_text memory_type : string) : M outcome :=
  try_except
    (_ <~ invoke (MemAdd user_id memory_text memory_type)
            (client_add memory_client user_id memory_text memory_type) ;;
     ret Success)
    (fun e => ret (Failure (exn_str e))).

(** [get_memories(user_id, limit, offset=0)]; [memory_type] is never
    given by the callers. *)
Definition get_memories (user_id : string) (limit : Z) : M memories_value :=
  try_except
    (memories <~ invoke (MemGetAll user_id limit 0)
                   (client_get_all memory_client user_id limit 0) ;;
     ret memories)
    (fun e => ret (ListValue [])).

(** [memory.get('score', 0)] *)
Definition score_of (m : memory) : Q :=
  match mem_score m with Some s => s | None => 0%Q end.

(** [search_memories(user_id, query, limit, threshold)] *)
Definition search_memories (user_id query : string) (limit : Z) (threshold : Q)
  : M (list memory) :=
  try_except
    (memories <~ invoke (MemSearch query user_id limit)
                   (client_search memory_client query user_id limit) ;;
     results <~ lift (subscript_results memories) ;;
     let filtered_memories :=
       filter (fun m => Qle_bool threshold (score_of m)) results in
     ret filtered_memories)
    (fun e => ret []).

(** [update_memory(memory_id, updated_text)] *)
Definition update_memory (memory_id updated_text : string) : M outcome :=
  try_except
    (_ <~ invoke (MemUpdate memory_id updated_text)
            (client_update memory_client memory_id updated_text) ;;
     ret Success)
    (fun e => ret (Failure (exn_str e))).

(** [delete_memory(memory_id)] *)
Definition delete_memory (memory_id : string) : M outcome :=
  try_except
    (_ <~ invoke (MemDelete memory_id) (client_delete memory_client memory_id) ;;
     ret Success)
    (fun e => ret (Failure (exn_str e))).

(** [clear_user_memories(user_id)] *)
Definition clear_user_memories (user_id : string) : M outcome :=
  try_except
    (_ <~ invoke (MemDeleteAll user_id)
            (client_delete_all memory_client user_id) ;;
     ret Success)
    (fun e => ret (Failure (exn_str e))).

End MemoryManager.

End Memory.

(** ** The chat application (app.py) *)

Module App.

Import DateTime Gateway Memory.
Open Scope gateway_scope.

(** [st.session_state], as far as the handlers read it. *)
Record session := {
  memory_available : bool;
  user_id : string;
  calendar_authenticated : bool }.

(** The dict a calendar tool returns, by the keys the handlers read. *)
Record tool_dict := {
  formatted_output : option string;
  message : option string;
  available : option bool }.

(** What the handlers reach: the mem0 client behind the memory manager,
    the calendar tools, and the clock read by [datetime.now()]. The
    tools catch every exception themselves and always return a dict. *)
Record gateway := {
  mem0 : memory_client;
  get_todays_events : tool_dict;
  get_weekly_events : tool_dict;
  get_upcoming_events : tool_dict;
  search_events : string -> Z -> tool_dict;
  check_availability : datetime -> datetime -> tool_dict;
  get_next_free_slot : Z -> tool_dict;
  now : datetime }.

(** The replies: one constructor for each text a handler can return, with
    the values its f-string inserts. The comments quote the source. *)
Inductive reply :=
(* process_memory_query *)
| MemoryNotAvailable                     (* "Memory system is not available." *)
| MemoryStored (memory_content : string) (* "**Memory Stored:** ..." *)
| MemoryError (error : string)           (* "**Memory Error:** ..." *)
| InvalidMemory                (* "Please provide a valid memory to store." *)
| MemoryUpdated (memory_id new_content : string) (* "**Memory Updated:** .." *)
| UpdateError (error : string)           (* "**Update Error:** ..." *)
| UpdateUsage              (* "**Usage:** update memory <id> <new content>" *)
| MemoryDeleted (memory_id : string)     (* "**Memory Deleted:** ..." *)
| DeleteError (error : string)           (* "**Delete Error:** ..." *)
| DeleteUsage                            (* "**Usage:** delete memory <id>" *)
| MemoriesAbout (query : string) (memories : list memory)
                                         (* "**Memories about '..':**" *)
| YourMemories (memories : list memory)  (* "**Your Memories:**" *)
| NoMemoriesAbout (query : string)
              (* "No memories found about '..' with sufficient similarity" *)
| NoMemoriesStored                       (* "No memories stored yet. ..." *)
| MemorySearchResults (query : string) (memories : list memory)
                                   (* "**Memory Search Results for '..':**" *)
| NoMemoriesFound (query : string)
                (* "No memories found for '..' with sufficient similarity" *)
| SpecifyMemorySearch
       (* "Please specify what you want to search for in your memories." *)
| AllMemoriesCleared               (* "**All memories have been cleared.**" *)
| PreferenceStored (preference_text : string) (* "**Preference Stored:** .." *)
| UnknownMemoryCommand (* "**Unknown Memory Command.** Available commands:.." *)
| MemorySystemError (str_e : string)     (* "**Memory System Error:** ..." *)
(* process_calendar_query *)
| TodaysSchedule (events : string)       (* "**Today's Schedule:**" *)
| WeeklySchedule (events : string)       (* "**Weekly Schedule:**" *)
| UpcomingEvents (events : string)       (* "**Upcoming Events:**" *)
| SearchResults (query events : string)  (* "**Search Results for '..':**" *)
| SpecifyCalendarSearch
       (* "Please specify what you want to search for in your calendar." *)
| Availability (message : string)        (* "**Availability:**" and message *)
| AvailableNextTwoHours      (* "You're available for the next 2 hours!" *)
| BusyNextTwoHours                 (* "You're busy in the next 2 hours." *)
| CalendarError (str_e : string)         (* "**Calendar Error:** ..." *)
(* process_user_input *)
| CalendarNotAuthenticated (* "**Calendar not authenticated.** Please ..." *)
| HelpText                             (* "**Available Commands:** ..." *)
| Greeting                (* "Hello! I'm your personal assistant. ..." *)
| CommandNotRecognized          (* "**Command not recognized.** ..." *).

(** [d.get(key, default)] for a key that may be absent *)
Definition get_or {A} (o : option A) (default : A) : A :=
  match o with Some v => v | None => default end.

(** The double quote, for the texts that put one around a value *)
Definition dquote : string := String (ascii_of_nat 34) EmptyString.

(** The truth value of a string, and of a list *)
Definition nonempty (s : string) : bool :=
  match s with EmptyString => false | _ => true end.
Definition nonempty_list {A} (l : list A) : bool :=
  match l with [] => false | _ => true end.

Section Handlers.

Variable gw : gateway.
Variable st : session.

(** [process_calendar_query(user_input)] *)
Definition process_calendar_query (user_input : string) : M reply :=
  let user_input_lower := Py.strip (Py.lower user_input) in
  try_except
    (if Py.any (Py.contains user_input_lower) ["today"; "today's"; "todays"]
     then
       result <~ invoke CalTodaysEvents (Ok (get_todays_events gw)) ;;
       ret (TodaysSchedule
              (get_or (formatted_output result) "No events found for today"))
     else if Py.any (Py.contains user_input_lower) ["week"; "weekly"; "this week"]
     then
       result <~ invoke CalWeeklyEvents (Ok (get_weekly_events gw)) ;;
       ret (WeeklySchedule
              (get_or (formatted_output result) "No events found for this week"))
     else if Py.any (Py.contains user_input_lower)
               ["upcoming"; "next events"; "future events"]
     then
       result <~ invoke CalUpcomingEvents (Ok (get_upcoming_events gw)) ;;
       ret (UpcomingEvents
              (get_or (formatted_output result) "No upcoming events found"))
     else if Py.startswith user_input_lower "search "
             || Py.startswith user_input_lower "find "
     then
       let query :=
         Py.strip (Py.replace_empty (Py.replace_empty user_input_lower "search")
                                    "find") in
       if nonempty query then
         result <~ invoke (CalSearchEvents query 10)
                     (Ok (search_events gw query 10)) ;;
         ret (SearchResults query
                (get_or (formatted_output result)
                        ("No events found for " ++ dquote ++ query ++ dquote)))
       else ret SpecifyCalendarSearch
     else if Py.any (Py.contains user_input_lower) ["available"; "free"; "busy"]
     then
       if Py.contains user_input_lower "next"
          && Py.contains user_input_lower "free"
       then
         result <~ invoke (CalNextFreeSlot 60) (Ok (get_next_free_slot gw 60)) ;;
         ret (Availability (get_or (message result) "Unable to find free slot"))
       else
         let start_time := now gw in
         end_time <~ lift (add start_time (timedelta_hours 2)) ;;
         result <~ invoke (CalCheckAvailability start_time end_time)
                     (Ok (check_availability gw start_time end_time)) ;;
         if get_or (available result) false
         then ret AvailableNextTwoHours
         else ret BusyNextTwoHours
     else
       result <~ invoke CalTodaysEvents (Ok (get_todays_events gw)) ;;
       ret (TodaysSchedule
              (get_or (formatted_output result) "No events found for today")))
    (fun e => ret (CalendarError (exn_str e))).

(** The loop that fills the reply with one line per memory keeps the
    list as it is; the threshold of the searches is 0.5. *)
Definition threshold : Q := 1 # 2.

(** [process_memory_query(user_input)] *)
Definition process_memory_query (user_input : string) : M reply :=
  let user_input_lower := Py.strip (Py.lower user_input) in
  if negb (memory_available st) then ret MemoryNotAvailable
  else
  let memory_manager := mem0 gw in
  let user_id := user_id st in
  try_except
    (if Py.startswith user_input_lower "remember that "
        || Py.startswith user_input_lower "remember i "
        || Py.startswith user_input_lower "remember to "
     then
       let memory_content :=
         if Py.startswith user_input_lower "remember that "
         then Py.strip (Py.replace_empty user_input "remember that")
         else if Py.startswith user_input_lower "remember i "
         then Py.strip (Py.replace_empty user_input "remember i")
         else if Py.startswith user_input_lower "remember to "
         then Py.strip (Py.replace_empty user_input "remember to")
         else user_input in
       if nonempty memory_content && (5 <? String.length memory_content)%nat
       then
         result <~ add_memory memory_manager user_id memory_content
                     "user_preference" ;;
         match result with
         | Success => ret (MemoryStored memory_content)
         | Failure error => ret (MemoryError error)
         end
       else ret InvalidMemory
     else if Py.startswith user_input_lower "update memory "
     then
       let parts := Py.split " " 3 user_input in
       if (4 <=? List.length parts)%nat then
         let memory_id := Py.item parts 2 in
         let new_content := Py.item parts 3 in
         result <~ update_memory memory_manager memory_id new_content ;;
         match result with
         | Success => ret (MemoryUpdated memory_id new_content)
         | Failure error => ret (UpdateError error)
         end
       else ret UpdateUsage
     else if Py.startswith user_input_lower "delete memory "
     then
       let parts := Py.split " " 2 user_input in
       if (3 <=? List.length parts)%nat then
         let memory_id := Py.item parts 2 in
         result <~ delete_memory memory_manager memory_id ;;
         match result with
         | Success => ret (MemoryDeleted memory_id)
         | Failure error => ret (DeleteError error)
         end
       else ret DeleteUsage
     else if Py.startswith user_input_lower "recall "
             || Py.startswith user_input_lower "remember about "
             || String.eqb user_input_lower "what do you remember"
             || String.eqb user_input_lower "my memories"
     then
       found <~
         (if String.eqb user_input_lower "what do you remember"
             || String.eqb user_input_lower "my memories"
          then
            v <~ get_memories memory_manager user_id 10 ;;
            memories <~ lift (subscript_results v) ;;
            ret (memories, None)
          else
            let query :=
              Py.strip (Py.replace_empty (Py.replace_empty user_input_lower "recall")
                                         "remember about") in
            if nonempty query && (1 <? String.length query)%nat
            then
              memories <~ search_memories memory_manager user_id query 10
                            threshold ;;
              ret (memories, Some query)
            else
              v <~ get_memories memory_manager user_id 10 ;;
              memories <~ lift (subscript_results v) ;;
              ret (memories, None)) ;;
       let '(memories, query) := found in
       if nonempty_list memories && (0 <? List.length memories)%nat
       then
         match query with
         | Some q => if nonempty q then ret (MemoriesAbout q memories)
                     else ret (YourMemories memories)
         | None => ret (YourMemories memories)
         end
       else
         match query with
         | Some q => if nonempty q then ret (NoMemoriesAbout q)
                     else ret NoMemoriesStored
         | None => ret NoMemoriesStored
         end
     else if Py.startswith user_input_lower "search memory "
             || Py.startswith user_input_lower "find in memory "
     then
       let query :=
         Py.strip (Py.replace_empty
                     (Py.replace_empty user_input_lower "search memory")
                     "find in memory") in
       if nonempty query && (1 <? String.length query)%nat
       then
         memories <~ search_memories memory_manager user_id query 5 threshold ;;
         if nonempty_list memories && (0 <? List.length memories)%nat
         then ret (MemorySearchResults query memories)
         else ret (NoMemoriesFound query)
       else ret SpecifyMemorySearch
     else if String.eqb user_input_lower "clear memories"
             || String.eqb user_input_lower "delete memories"
             || String.eqb user_input_lower "reset memories"
     then
       result <~ clear_user_memories memory_manager user_id ;;
       match result with
       | Success => ret AllMemoriesCleared
       | Failure error => ret (MemoryError error)
       end
     else if Py.startswith user_input_lower "i prefer "
             || Py.startswith user_input_lower "i like "
             || Py.startswith user_input_lower "set preference "
     then
       let preference_text := user_input in
       result <~ add_memory memory_manager user_id preference_text "preference" ;;
       match result with
       | Success => ret (PreferenceStored preference_text)
       | Failure error => ret (MemoryError error)
       end
     else ret UnknownMemoryCommand)
    (fun e => ret (MemorySystemError (exn_str e))).

Definition memory_patterns : list string :=
  [ "remember that"; "remember i"; "remember to";
    "recall"; "remember about"; "what do you remember"; "my memories";
    "search memory"; "find in memory"; "update memory"; "delete memory";
    "clear memories"; "delete memories"; "reset memories";
    "i prefer"; "i like"; "set preference" ].

Definition calendar_patterns : list string :=
  [ "today"; "today's"; "todays"; "week"; "weekly"; "this week";
    "upcoming"; "next events"; "future events";
    "search"; "find"; "available"; "free"; "busy"; "schedule";
    "meeting"; "event"; "appointment"; "calendar" ].

(** [process_user_input(user_input)] *)
Definition process_user_input (user_input : string) : M reply :=
  let user_input_lower := Py.strip (Py.lower user_input) in
  if Py.any (fun pattern => Py.startswith user_input_lower pattern
                            || Py.contains user_input_lower pattern)
            memory_patterns
  then process_memory_query user_input
  else if Py.any (fun pattern => Py.contains user_input_lower pattern)
                 calendar_patterns
  then
    if negb (calendar_authenticated st) then ret CalendarNotAuthenticated
    else process_calendar_query user_input
  else if Py.in_list user_input_lower ["help"; "commands"; "what can you do"]
  then ret HelpText
  else if Py.in_list user_input_lower ["hello"; "hi"; "hey"; "greetings"]
  then ret Greeting
  else ret CommandNotRecognized.

End Handlers.

(** *** The routes of the router

    The six outcomes of [process_user_input], and the tests of its
    [if]/[elif] chain with the name of the branch in place of its body. *)
Inductive route :=
| ToMemoryHandler
| ToCalendarHandler
| NotAuthenticatedMessage
| HelpMessage
| GreetingMessage
| NotRecognizedMessage.

Definition classify (user_input : string) (calendar_authenticated : bool)
  : route :=
  let user_input_lower := Py.strip (Py.lower user_input) in
  if Py.any (fun pattern => Py.startswith user_input_lower pattern
                            || Py.contains user_input_lower pattern)
            memory_patterns
  then ToMemoryHandler
  else if Py.any (fun pattern => Py.contains user_input_lower pattern)
                 calendar_patterns
  then if negb calendar_authenticated then NotAuthenticatedMessage
       else ToCalendarHandler
  else if Py.in_list user_input_lower ["help"; "commands"; "what can you do"]
  then HelpMessage
  else if Py.in_list user_input_lower ["hello"; "hi"; "hey"; "greetings"]
  then GreetingMessage
  else NotRecognizedMessage.

(** What each route does with the input. *)
Definition dispatch (gw : gateway) (st : session) (user_input : string)
    (r : route) : M reply :=
  match r with
  | ToMemoryHandler => process_memory_query gw st user_input
  | ToCalendarHandler => process_calendar_query gw user_input
  | NotAuthenticatedMessage => ret CalendarNotAuthenticated
  | HelpMessage => ret HelpText
  | GreetingMessage => ret Greeting
  | NotRecognizedMessage => ret CommandNotRecognized
  end.

(** *** The decision rule in the words of the specification *)

(** [s] starts with [p]; [p] occurs in [s]. *)
Definition starts_with (s p : string) : Prop := exists rest, s = p ++ rest.
Definition occurs_in (p s : string) : Prop :=
  exists before after, s = before ++ p ++ after.

(** Rule 1: the text starts with, or contains, a phrase of the memory
    set. Rule 2: the text contains a phrase of the calendar set. *)
Definition memory_match (s : string) : Prop :=
  exists p, In p memory_patterns /\ (starts_with s p \/ occurs_in p s).
Definition calendar_match (s : string) : Prop :=
  exists p, In p calendar_patterns /\ occurs_in p s.

(** *** The two semantic searches of the memory handler *)

Inductive search_kind := RecallQuery | SearchMemory.

Definition search_limit (k : search_kind) : Z :=
  match k with RecallQuery => 10 | SearchMemory => 5 end.

(** The test of the branch, on the lower-cased trimmed text. *)
Definition is_search (k : search_kind) (user_input_lower : string) : bool :=
  match k with
  | RecallQuery =>
      Py.startswith user_input_lower "recall "
      || Py.startswith user_input_lower "remember about "
  | SearchMemory =>
      Py.startswith user_input_lower "search memory "
      || Py.startswith user_input_lower "find in memory "
  end.

(** The query the branch extracts. *)
Definition search_query (k : search_kind) (user_input_lower : string) : string :=
  match k with
  | RecallQuery =>
      Py.strip (Py.replace_empty (Py.replace_empty user_input_lower "recall")
                                 "remember about")
  | SearchMemory =>
      Py.strip (Py.replace_empty
                  (Py.replace_empty user_input_lower "search memory")
                  "find in memory")
  end.

(** The reply of the branch for the list it shows. *)
Definition search_reply (k : search_kind) (query : string)
    (shown : list memory) : reply :=
  match k, shown with
  | RecallQuery, [] => NoMemoriesAbout query
  | RecallQuery, _ :: _ => MemoriesAbout query shown
  | SearchMemory, [] => NoMemoriesFound query
  | SearchMemory, _ :: _ => MemorySearchResults query shown
  end.

(** The client-side cut: the raw results with a score of at least 0.5. *)
Definition above_threshold (raw : list memory) : list memory :=
  filter (fun m => Qle_bool threshold (score_of m)) raw.

(** *** Sample sessions and services *)

Definition student : session :=
  {| memory_available := true; user_id := "student_001";
     calendar_authenticated := true |}.

Definition student_signed_out : session :=
  {| memory_available := true; user_id := "student_001";
     calendar_authenticated := false |}.

Definition scored (id text : string) (score : Q) : memory :=
  {| mem_id := Some id; mem_memory := Some text; mem_categories := None;
     mem_score := Some score |}.
Definition unscored (id text : string) : memory :=
  {| mem_id := Some id; mem_memory := Some text; mem_categories := None;
     mem_score := None |}.

Definition raw_hits : list memory :=
  [ scored "a1" "project deadline is friday" (9 # 10);
    scored "b2" "likes tea" (3 # 10);
    unscored "c3" "project kickoff";
    scored "d4" "project budget" (1 # 2);
    scored "e5" "gym on monday" (49 # 100) ].

Definition mem0_up : memory_client :=
  {| client_add := fun _ _ _ => Ok tt;
     client_get_all := fun _ _ _ => Ok (DictValue (Some raw_hits));
     client_search := fun _ _ _ => Ok (DictValue (Some raw_hits));
     client_update := fun _ _ => Ok tt;
     client_delete := fun _ => Ok tt;
     client_delete_all := fun _ => Ok tt |}.

Definition mem0_down : memory_client :=
  let e := Exn OtherError "connection refused" in
  {| client_add := fun _ _ _ => Raise e;
     client_get_all := fun _ _ _ => Raise e;
     client_search := fun _ _ _ => Raise e;
     client_update := fun _ _ => Raise e;
     client_delete := fun _ => Raise e;
     client_delete_all := fun _ => Raise e |}.

Definition no_events : tool_dict :=
  {| formatted_output := Some "No events found."; message := None;
     available := None |}.

Definition services (m : memory_client) : gateway :=
  {| mem0 := m;
     get_todays_events := no_events;
     get_weekly_events := no_events;
     get_upcoming_events := no_events;
     search_events := fun _ _ => no_events;
     check_availability := fun _ _ =>
       {| formatted_output := None; message := Some "Available";
          available := Some true |};
     get_next_free_slot := fun _ =>
       {| formatted_output := None;
          message := Some "Next available 60-minute slot: 2026-11-04 10:30";
          available := None |};
     now := Calendar.mid_morning |}.

End App.

(** ** Further sample calendars *)

Module CalendarSamples.

Import DateTime Calendar.
Open Scope Z_scope.

(** A calendar that is busy in every window, one whose provider answers
    with a dict without [calendars], and one that is not signed in and
    cannot sign in. *)
Definition always_busy : client :=
  {| authenticated := true; authenticate := true;
     freebusy_query := fun _ _ _ => Ok one_busy |}.

Definition bare_answer : client :=
  {| authenticated := true; authenticate := true;
     freebusy_query := fun _ _ _ => Ok empty_dict |}.

Definition signed_out : client :=
  {| authenticated := false; authenticate := false;
     freebusy_query := fun _ _ _ => Ok one_busy |}.

Definition network_down : client :=
  {| authenticated := true; authenticate := true;
     freebusy_query := fun _ _ _ => Raise (Exn OtherError "timed out") |}.

End CalendarSamples.

(** ** Counting characters *)

Module PyCount.

(** [s.count(c)] for a character [c] *)
Fixpoint count (c : ascii) (s : string) : nat :=
  match s with
  | EmptyString => 0
  | String a tl => (if Ascii.eqb a c then 1 else 0) + count c tl
  end.

End PyCount.

(** ** Kinds of calls *)

Module Calls.

Import Gateway.

(** A request to the mem0 client, as opposed to a calendar tool. *)
Definition is_memory_call (c : call) : bool :=
  match c with
  | MemAdd _ _ _ | MemGetAll _ _ _ | MemSearch _ _ _
  | MemUpdate _ _ | MemDelete _ | MemDeleteAll _ => true
  | _ => false
  end.

(** The commands that may change or delete stored memories, as tests on
    the lower-cased trimmed text: a call that deletes all memories needs
    one of the three clearing commands, a call that deletes or updates
    one memory needs its command at the start. Other calls are free. *)
Definition command_allows (user_input_lower : string) (c : call) : bool :=
  match c with
  | MemDeleteAll _ =>
      String.eqb user_input_lower "clear memories"
      || String.eqb user_input_lower "delete memories"
      || String.eqb user_input_lower "reset memories"
  | MemDelete _ => Py.startswith user_input_lower "delete memory "
  | MemUpdate _ _ => Py.startswith user_input_lower "update memory "
  | _ => true
  end.

End Calls.

(** ** Further sample services *)

Module ServiceSamples.

Import DateTime Gateway Memory App.

(** The calendar tools when they fail: each returns the dict
    [{"status": "error", "message": ...}], which has neither
    [formatted_output] nor [available]. *)
Definition tool_error (msg : string) : tool_dict :=
  {| formatted_output := None; message := Some msg; available := None |}.

Definition services_calendar_failing : gateway :=
  {| mem0 := mem0_up;
     get_todays_events := tool_error "Authentication required";
     get_weekly_events := tool_error "Authentication required";
     get_upcoming_events := tool_error "Authentication required";
     search_events := fun _ _ => tool_error "Authentication required";
     check_availability := fun _ _ => tool_error "Authentication required";
     get_next_free_slot := fun _ => tool_error "Authentication required";
     now := Calendar.mid_morning |}.

End ServiceSamples.

(** ** Events of the calendar (calendar_tools.py) *)

Module Events.

Import DateTime Calendar.
Open Scope result_scope.

(** The value of [event["start"]] and [event["end"]]: a dict that may
    hold [dateTime] and [date]. *)
Record time_dict := { dateTime : option string; date : option string }.

Record attendee_dict := {
  email : option string;
  displayName : option string;
  responseStatus : option string }.

Record organizer_dict := { organizer_email : option string }.

(** An event as the provider sends it: a dict, each key present or not. *)
Record raw_event := {
  ev_id : option string;
  ev_summary : option string;
  ev_description : option string;
  ev_start : option time_dict;
  ev_end : option time_dict;
  ev_location : option string;
  ev_attendees : option (list attendee_dict);
  ev_organizer : option organizer_dict;
  ev_status : option string;
  ev_htmlLink : option string;
  ev_created : option string;
  ev_updated : option string }.

(** An attendee of a parsed event; a value is [None] where [.get] found
    no key. *)
Record attendee := {
  att_email : option string;
  att_name : option string;
  att_response_status : option string }.

(** The dict built by [_parse_single_event]. *)
Record parsed_event := {
  event_id : string;
  title : string;
  description : string;
  start_time : string;
  end_time : string;
  start_datetime : datetime;
  end_datetime : datetime;
  location : string;
  attendees : list attendee;
  organizer : string;
  status : string;
  html_link : string;
  created : string;
  updated : string;
  is_all_day : bool }.

(** [d[key]] for a key that may be absent *)
Definition subscript {A} (key : string) (o : option A) : result A :=
  match o with
  | Some v => Ok v
  | None => Raise (Exn KeyError key)
  end.

(** [s.replace(old, new)] for a one-character [old] *)
Fixpoint replace_char (s : string) (old : ascii) (new : string) : string :=
  match s with
  | EmptyString => EmptyString
  | String c tl =>
      if Ascii.eqb c old then new ++ replace_char tl old new
      else String c (replace_char tl old new)
  end.

(** [str(n)] for a natural number: its decimal digits. *)
Definition digit (n : nat) : ascii := ascii_of_nat (48 + n).

Fixpoint str_digits (fuel n : nat) (acc : string) : string :=
  match fuel with
  | O => acc
  | S fuel' =>
      let acc' := String (digit (n mod 10)) acc in
      if (n / 10 =? 0)%nat then acc' else str_digits fuel' (n / 10) acc'
  end.

Definition str (n : nat) : string := str_digits (S n) n EmptyString.

(** [d.strftime("%I:%M %p")]: the hour on the 12-hour clock and the
    minute, two digits each, then AM or PM. *)
Definition two_digits (n : Z) : string :=
  String (digit (Z.to_nat (n / 10)))
    (String (digit (Z.to_nat (n mod 10))) EmptyString).

Definition strftime_I_M_p (d : datetime) : string :=
  let h12 := if (hour d mod 12 =? 0)%Z then 12%Z else (hour d mod 12)%Z in
  two_digits h12 ++ ":" ++ two_digits (minute d) ++ " "
  ++ (if (hour d <? 12)%Z then "AM" else "PM").

Section Parsing.

(** [datetime.fromisoformat], a function of the standard library. *)
Variable fromisoformat : string -> result datetime.

(** The text in brackets before a location, a pin sign in the source. *)
Variable location_marker : string.

(** [_parse_single_event(event)]; any exception gives [None]. *)
Definition _parse_single_event (event : raw_event) : option parsed_event :=
  let parsed :=
    start_dict <- subscript "start" (ev_start event) ;;
    end_dict <- subscript "end" (ev_end event) ;;
    let start :=
      match dateTime start_dict with Some v => Some v | None => date start_dict end in
    let end_ :=
      match dateTime end_dict with Some v => Some v | None => date end_dict end in
    start <- match start with
             | Some v => Ok v
             | None => Raise (Exn TypeError
                                "argument of type 'NoneType' is not iterable")
             end ;;
    start_dt <- (if Py.contains start "T"
                 then fromisoformat (replace_char start "Z" "+00:00")
                 else fromisoformat start) ;;
    end_ <- match end_ with
            | Some v => Ok v
            | None => Raise (Exn TypeError
                               "argument of type 'NoneType' is not iterable")
            end ;;
    end_dt <- (if Py.contains end_ "T"
               then fromisoformat (replace_char end_ "Z" "+00:00")
               else fromisoformat end_) ;;
    let attendees :=
      map (fun a => {| att_email := email a;
                       att_name := displayName a;
                       att_response_status := responseStatus a |})
          (match ev_attendees event with Some l => l | None => [] end) in
    id <- subscript "id" (ev_id event) ;;
    Ok {| event_id := id;
          title := match ev_summary event with Some v => v | None => "No Title" end;
          description :=
            match ev_description event with Some v => v | None => "" end;
          start_time := start;
          end_time := end_;
          start_datetime := start_dt;
          end_datetime := end_dt;
          location := match ev_location event with Some v => v | None => "" end;
          attendees := attendees;
          organizer :=
            match ev_organizer event with
            | Some o => match organizer_email o with Some v => v | None => "" end
            | None => ""
            end;
          status := match ev_status event with Some v => v | None => "confirmed" end;
          html_link := match ev_htmlLink event with Some v => v | None => "" end;
          created := match ev_created event with Some v => v | None => "" end;
          updated := match ev_updated event with Some v => v | None => "" end;
          is_all_day := match date start_dict with Some _ => true | None => false end
       |} in
  match parsed with
  | Ok parsed_event => Some parsed_event
  | Raise _ => None
  end.

(** What one event adds to the list of parsed events. *)
Definition kept (event : raw_event) : list parsed_event :=
  match _parse_single_event event with Some p => [p] | None => [] end.

(** [_parse_events(events)]: the loop appends what could be parsed. *)
Definition _parse_events (events : list raw_event) : list parsed_event :=
  fold_left
    (fun parsed_events event =>
       match _parse_single_event event with
       | Some parsed_event => (parsed_events ++ [parsed_event])%list
       | None => parsed_events
       end)
    events [].

(** The event with another start time. *)
Definition at_time (d : datetime) (e : parsed_event) : parsed_event :=
  {| event_id := event_id e; title := title e; description := description e;
     start_time := start_time e; end_time := end_time e;
     start_datetime := d; end_datetime := end_datetime e;
     location := location e; attendees := attendees e;
     organizer := organizer e; status := status e; html_link := html_link e;
     created := created e; updated := updated e; is_all_day := is_all_day e |}.

(** One line of [format_events_for_display], for the event at count [i]. *)
Definition event_line (i : nat) (event : parsed_event) : string :=
  let time_str :=
    if is_all_day event then "All day"
    else strftime_I_M_p (start_datetime event) in
  let event_line := str i ++ ". **" ++ title event ++ "** - " ++ time_str in
  match location event with
  | EmptyString => event_line
  | _ => event_line ++ " (" ++ location_marker ++ " " ++ location event ++ ")"
  end.

(** The loop over [enumerate(events, i)]. *)
Fixpoint formatted_from (i : nat) (events : list parsed_event) : list string :=
  match events with
  | [] => []
  | event :: rest => event_line i event :: formatted_from (S i) rest
  end.

Definition newline : string := String (ascii_of_nat 10) EmptyString.

(** [format_events_for_display(events)] *)
Definition format_events_for_display (events : list parsed_event) : string :=
  match events with
  | [] => "No events found."
  | _ => String.concat newline (formatted_from 1 events)
  end.

End Parsing.

End Events.

(** ** Fetching events (calendar_tools.py, mcp_calendar_client.py) *)

Module EventQueries.

Import DateTime Calendar Events.
Open Scope result_scope.

(** The calendar that [get_upcoming_events] reads. *)
Definition HOLIDAY_CALENDAR : string :=
  "en.indian#holiday@group.v.calendar.google.com".

(** The client with the provider's [events().list(...)]: the [items] of
    its answer for a calendar id, [timeMin], [timeMax], [maxResults]
    and [q]. Times are passed as datetimes, not as ISO texts. *)
Record events_client := {
  base : client;
  events_list : string -> datetime -> option datetime -> Z -> option string
                -> result (list raw_event) }.

Section Queries.

Variable fromisoformat : string -> result datetime.
Variable location_marker : string.
Variable c : events_client.

Definition signed_in : bool :=
  negb (negb (authenticated (base c)) && negb (authenticate (base c))).

(** [try: body except HttpError: return []] *)
Definition except_http (body : result (list parsed_event))
  : result (list parsed_event) :=
  match body with
  | Ok events => Ok events
  | Raise e => if is_http_error e then Ok [] else Raise e
  end.

(** [get_events_for_date(target_date, max_results)] *)
Definition get_events_for_date (target_date : datetime) (max_results : Z)
  : result (list parsed_event) :=
  if negb signed_in then Ok []
  else
    except_http
      (start_of_day <- replace target_date (Some 0%Z) (Some 0%Z) (Some 0%Z)
                         (Some 0%Z) ;;
       end_of_day <- add start_of_day (timedelta_days 1) ;;
       events <- events_list c "primary" start_of_day (Some end_of_day)
                   max_results None ;;
       Ok (_parse_events fromisoformat events)).

(** [get_events_for_date_range(start_date, end_date, max_results)] *)
Definition get_events_for_date_range (start_date end_date : datetime)
    (max_results : Z) : result (list parsed_event) :=
  if negb signed_in then Ok []
  else
    except_http
      (events <- events_list c "primary" start_date (Some end_date)
                   max_results None ;;
       Ok (_parse_events fromisoformat events)).

(** [get_todays_events()], with [now] the reading of [datetime.now()] *)
Definition get_todays_events (now : datetime) : result (list parsed_event) :=
  today <- replace now (Some 0%Z) (Some 0%Z) (Some 0%Z) (Some 0%Z) ;;
  get_events_for_date today 50.

(** [get_weekly_events()] *)
Definition get_weekly_events (now : datetime) : result (list parsed_event) :=
  today <- replace now (Some 0%Z) (Some 0%Z) (Some 0%Z) (Some 0%Z) ;;
  end_of_week <- add today (timedelta_days 7) ;;
  get_events_for_date_range today end_of_week 100.

(** [get_upcoming_events(max_results)], with [utc_now] the reading of
    [datetime.now(tz=utc)] *)
Definition get_upcoming_events (utc_now : datetime) (max_results : Z)
  : result (list parsed_event) :=
  if negb signed_in then Ok []
  else
    except_http
      (events <- events_list c HOLIDAY_CALENDAR utc_now None max_results None ;;
       Ok (_parse_events fromisoformat events)).

(** [search_events(query, max_results)] *)
Definition search_events (utc_now : datetime) (query : string)
    (max_results : Z) : result (list parsed_event) :=
  if negb signed_in then Ok []
  else
    except_http
      (events <- events_list c "primary" utc_now None max_results (Some query) ;;
       Ok (_parse_events fromisoformat events)).

(** The dicts of the tools, by the keys the chat application reads. *)
Definition tool_success (formatted : string) : App.tool_dict :=
  {| App.formatted_output := Some formatted; App.message := None;
     App.available := None |}.
Definition tool_failure (msg : string) : App.tool_dict :=
  {| App.formatted_output := None; App.message := Some msg;
     App.available := None |}.

(** The common shape of the tools: the sign-in check, the fetch, the
    formatting, and [except Exception] around all of it. *)
Definition tool (failed : string) (fetch : result (list parsed_event))
  : App.tool_dict :=
  if negb signed_in then tool_failure "Authentication required"
  else
    match fetch with
    | Ok events =>
        tool_success (format_events_for_display location_marker events)
    | Raise e => tool_failure (failed ++ exn_str e)
    end.

(** The tools [get_todays_events()], [get_upcoming_events()] with its
    default of 10 results, and [search_events(data)] *)
Definition tool_get_todays_events (now : datetime) : App.tool_dict :=
  tool "Failed to fetch today's events: " (get_todays_events now).

Definition tool_get_upcoming_events (utc_now : datetime) : App.tool_dict :=
  tool "Failed to fetch upcoming events: " (get_upcoming_events utc_now 10).

Definition tool_search_events (utc_now : datetime) (query : string)
    (max_results : Z) : App.tool_dict :=
  tool "Search failed: " (search_events utc_now query max_results).

(** The services of the chat application with these three tools in
    place of those of [others]. *)
Definition with_tools (others : App.gateway) (utc_now : datetime)
  : App.gateway :=
  {| App.mem0 := App.mem0 others;
     App.get_todays_events := tool_get_todays_events (App.now others);
     App.get_weekly_events := App.get_weekly_events others;
     App.get_upcoming_events := tool_get_upcoming_events utc_now;
     App.search_events := tool_search_events utc_now;
     App.check_availability := App.check_availability others;
     App.get_next_free_slot := App.get_next_free_slot others;
     App.now := App.now others |}.

End Queries.

(** Samples: a parser of ISO texts that knows two texts, a timed event,
    an all-day event that also carries a [dateTime], an event without
    [id], and providers with and without a failure. *)
Definition sample_fromisoformat (s : string) : result datetime :=
  if String.eqb s "2026-11-04T14:30:00+00:00" then Ok (mkDatetime 739924 14 30 0 0)
  else if String.eqb s "2026-11-05" then Ok (mkDatetime 739925 0 0 0 0)
  else Raise (Exn ValueError "Invalid isoformat string").

Definition timed (id : option string) (summary : string) : raw_event :=
  {| ev_id := id; ev_summary := Some summary; ev_description := None;
     ev_start := Some {| dateTime := Some "2026-11-04T14:30:00Z"; date := None |};
     ev_end := Some {| dateTime := Some "2026-11-04T14:30:00Z"; date := None |};
     ev_location := Some "Room 4"; ev_attendees := None; ev_organizer := None;
     ev_status := None; ev_htmlLink := None; ev_created := None;
     ev_updated := None |}.

Definition all_day (id : string) : raw_event :=
  {| ev_id := Some id; ev_summary := None; ev_description := None;
     ev_start := Some {| dateTime := Some "2026-11-04T14:30:00Z";
                         date := Some "2026-11-05" |};
     ev_end := Some {| dateTime := None; date := Some "2026-11-05" |};
     ev_location := None; ev_attendees := None; ev_organizer := None;
     ev_status := None; ev_htmlLink := None; ev_created := None;
     ev_updated := None |}.

Definition sample_items : list raw_event :=
  [ timed (Some "e1") "Standup"; timed None "No id"; all_day "e3" ].

(** The all-day sample as parsed with [sample_fromisoformat]. *)
Definition parsed_all_day : parsed_event :=
  {| event_id := "e3"; title := "No Title"; description := "";
     start_time := "2026-11-04T14:30:00Z"; end_time := "2026-11-05";
     start_datetime := mkDatetime 739924 14 30 0 0;
     end_datetime := mkDatetime 739925 0 0 0 0;
     location := ""; attendees := []; organizer := ""; status := "confirmed";
     html_link := ""; created := ""; updated := ""; is_all_day := true |}.

Definition provider_with_events : events_client :=
  {| base := always_free;
     events_list := fun calendar _ _ _ _ =>
       if String.eqb calendar "primary" then Ok sample_items else Ok [] |}.

Definition provider_other_primary : events_client :=
  {| base := always_free;
     events_list := fun calendar _ _ _ _ =>
       if String.eqb calendar "primary" then Ok [all_day "e9"] else Ok [] |}.

Definition provider_http_error : events_client :=
  {| base := always_free;
     events_list := fun _ _ _ _ _ => Raise (Exn HttpError "503") |}.

End EventQueries.

(** ** Session state and chat history (app.py) *)

Module Session.

Import DateTime Gateway Memory.
Open Scope gateway_scope.

Inductive speaker := User | Assistant.

(** The text of a chat entry: what the user typed, a reply of the
    router, or the sidebar's own text for an empty memory list. *)
Inductive chat_message :=
| Typed (user_input : string)
| Response (response : App.reply)
| NoMemoriesStoredYet.

(** An entry of [chat_history]: the dict with [user], [message] and
    [timestamp]. *)
Record chat := { user : speaker; message : chat_message; timestamp : datetime }.

(** [st.session_state]: each key is set or not. *)
Record session_state := {
  memory_manager : option memory_client;
  memory_available : option bool;
  memory_error : option string;
  chat_history : option (list chat);
  calendar_authenticated : option bool;
  user_info : option unit;
  user_id : option string }.

Definition empty_state : session_state :=
  {| memory_manager := None; memory_available := None; memory_error := None;
     chat_history := None; calendar_authenticated := None; user_info := None;
     user_id := None |}.

(** [initialize_session_state()], with [construct] the outcome of
    [MemoryManager()]: the client, or the exception it raises. *)
Definition initialize_session_state (construct : result memory_client)
    (s : session_state) : session_state :=
  let s1 :=
    match memory_manager s with
    | Some _ => s
    | None =>
        match construct with
        | Ok manager =>
            {| memory_manager := Some manager; memory_available := Some true;
               memory_error := memory_error s; chat_history := chat_history s;
               calendar_authenticated := calendar_authenticated s;
               user_info := user_info s; user_id := user_id s |}
        | Raise e =>
            {| memory_manager := None; memory_available := Some false;
               memory_error := Some (exn_str e); chat_history := chat_history s;
               calendar_authenticated := calendar_authenticated s;
               user_info := user_info s; user_id := user_id s |}
        end
    end in
  {| memory_manager := memory_manager s1;
     memory_available := memory_available s1;
     memory_error := memory_error s1;
     chat_history :=
       match chat_history s1 with Some h => Some h | None => Some [] end;
     calendar_authenticated :=
       match calendar_authenticated s1 with
       | Some b => Some b
       | None => Some false
       end;
     user_info := match user_info s1 with Some i => Some i | None => Some tt end;
     user_id :=
       match user_id s1 with Some u => Some u | None => Some "student_001" end |}.

(** The keys that the handlers and the chat read are set, and a memory
    system marked available has its manager. *)
Definition readable (s : session_state) : Prop :=
  memory_available s <> None
  /\ chat_history s <> None
  /\ calendar_authenticated s <> None
  /\ user_id s <> None
  /\ (memory_available s = Some true -> memory_manager s <> None).

Section Chat.

Variable gw : App.gateway.
Variable st : App.session.

(** The block under [if send_button and user_input]: the two appends
    around [process_user_input]; [t1] and [t2] are the two readings of
    the clock. The buttons of the sidebar run the same block on a fixed
    text. *)
Definition send (send_button : bool) (user_input : string)
    (t1 t2 : datetime) (history : list chat) : M (list chat) :=
  if send_button && App.nonempty user_input then
    let history :=
      (history ++ [{| user := User; message := Typed user_input;
                      timestamp := t1 |}])%list in
    response <~ App.process_user_input gw st user_input ;;
    ret (history ++ [{| user := Assistant; message := Response response;
                        timestamp := t2 |}])%list
  else ret history.

(** The button [View Memories]; nothing catches what it raises. *)
Definition view_memories (t1 : datetime) (history : list chat)
  : M (list chat) :=
  v <~ get_memories (App.mem0 gw) (App.user_id st) 10 ;;
  memories <~ lift (subscript_results v) ;;
  if App.nonempty_list memories then
    ret (history ++ [{| user := Assistant;
                        message := Response (App.YourMemories memories);
                        timestamp := t1 |}])%list
  else
    ret (history ++ [{| user := Assistant; message := NoMemoriesStoredYet;
                        timestamp := t1 |}])%list.

End Chat.

(** [chat_history[-20:]], the entries that are displayed *)
Definition displayed (history : list chat) : list chat :=
  skipn (List.length history - 20) history.

(** A history of [n] greetings. *)
Definition greetings (n : nat) : list chat :=
  repeat {| user := User; message := Typed "hi";
            timestamp := Calendar.mid_morning |} n.

End Session.

(** * Properties *)

(** ** String primitives on examples *)

Example lower_ex : Py.lower "RECALL Project" = "recall project".
Proof. reflexivity. Qed.

Example strip_ex : Py.strip "  update memory  " = "update memory".
Proof. reflexivity. Qed.

Example replace_ex :
  Py.replace_empty "search for findings" "search" = " for findings"
  /\ Py.replace_empty " for findings" "find" = " for ings"
  /\ Py.replace_empty "aaa" "aa" = "a".
Proof. repeat split; reflexivity. Qed.

Example split_ex :
  Py.split " " 3 "update memory abc new text here"
  = ["update"; "memory"; "abc"; "new text here"]
  /\ Py.split " " 3 "update memory" = ["update"; "memory"]
  /\ Py.split " " 2 "a  b c d" = ["a"; ""; "b c d"].
Proof. repeat split; reflexivity. Qed.


(** ** datetime arithmetic *)

Module DateTimeFacts.

Import DateTime.
Open Scope Z_scope.

Lemma to_us_of_us (t : Z) : to_us (of_us t) = t.
Proof.
  unfold to_us, of_us; simpl.
  pose proof (Z.div_mod t 1000000 ltac:(lia)).
  pose proof (Z.div_mod (t / 1000000) 60 ltac:(lia)).
  pose proof (Z.div_mod (t / 1000000 / 60) 60 ltac:(lia)).
  pose proof (Z.div_mod (t / 1000000 / 60 / 60) 24 ltac:(lia)).
  lia.
Qed.

Lemma valid_time_of_us (t : Z) : valid_time (of_us t).
Proof.
  unfold valid_time, of_us; simpl.
  pose proof (Z.mod_pos_bound t 1000000 ltac:(lia)).
  pose proof (Z.mod_pos_bound (t / 1000000) 60 ltac:(lia)).
  pose proof (Z.mod_pos_bound (t / 1000000 / 60) 60 ltac:(lia)).
  pose proof (Z.mod_pos_bound (t / 1000000 / 60 / 60) 24 ltac:(lia)).
  lia.
Qed.

Lemma to_us_inj (a b : datetime) :
  valid_time a -> valid_time b -> to_us a = to_us b -> a = b.
Proof.
  destruct a as [d1 h1 m1 s1 u1], b as [d2 h2 m2 s2 u2].
  unfold valid_time, to_us; simpl; intros Ha Hb E.
  assert (u1 = u2) by lia. assert (s1 = s2) by lia.
  assert (m1 = m2) by lia. assert (h1 = h2) by lia.
  assert (d1 = d2) by lia. subst; reflexivity.
Qed.

Lemma of_us_to_us (d : datetime) : valid_time d -> of_us (to_us d) = d.
Proof.
  intros V. apply to_us_inj; auto using valid_time_of_us, to_us_of_us.
Qed.

(** The comparison of the fields in order is the comparison of the
    instants. *)
Lemma ltb_to_us (a b : datetime) :
  valid_time a -> valid_time b -> ltb a b = (to_us a <? to_us b).
Proof.
  destruct a as [d1 h1 m1 s1 u1], b as [d2 h2 m2 s2 u2].
  unfold valid_time, to_us, ltb; simpl; intros Ha Hb.
  repeat match goal with
         | |- context [?x ?= ?y] => destruct (Z.compare_spec x y)
         end;
    try (symmetry; apply Z.ltb_lt; lia);
    try (symmetry; apply Z.ltb_ge; lia).
  subst. destruct (Z.ltb_spec u1 u2);
    [symmetry; apply Z.ltb_lt | symmetry; apply Z.ltb_ge]; lia.
Qed.

Lemma to_us_shift (d : datetime) (td : timedelta) :
  to_us (shift d td) = to_us d + td.
Proof. apply to_us_of_us. Qed.

Lemma valid_time_shift (d : datetime) (td : timedelta) :
  valid_time (shift d td).
Proof. apply valid_time_of_us. Qed.

Lemma add_ok (d r : datetime) (td : timedelta) :
  add d td = Ok r -> r = shift d td /\ valid r.
Proof.
  unfold add, in_range.
  destruct (1 <=? day (shift d td)) eqn:E1;
    destruct (day (shift d td) <=? MAXORDINAL) eqn:E2; simpl;
    intros H; inversion H; subst.
  split; [reflexivity|]. split; [lia | apply valid_time_shift].
Qed.

(** A whole number of hours leaves minute, second and microsecond alone. *)
Lemma shift_hours_fields (d : datetime) (k : Z) :
  valid_time d ->
  minute (shift d (timedelta_hours k)) = minute d
  /\ second (shift d (timedelta_hours k)) = second d
  /\ microsecond (shift d (timedelta_hours k)) = microsecond d.
Proof.
  intros V.
  pose proof (to_us_shift d (timedelta_hours k)) as E.
  pose proof (valid_time_shift d (timedelta_hours k)) as V'.
  destruct (shift d (timedelta_hours k)) as [d2 h2 m2 s2 u2].
  destruct d as [d1 h1 m1 s1 u1].
  unfold valid_time, to_us, timedelta_hours, US_PER_HOUR in *; simpl in *.
  assert (u2 = u1) by lia. assert (s2 = s1) by lia.
  assert (m2 = m1) by lia. auto.
Qed.

Lemma shift_shift (d : datetime) (a b : timedelta) :
  shift (shift d a) b = shift d (a + b).
Proof.
  unfold shift. rewrite to_us_of_us. f_equal; lia.
Qed.

Lemma shift_0 (d : datetime) : valid_time d -> shift d 0 = d.
Proof.
  intros V. unfold shift. rewrite Z.add_0_r. apply of_us_to_us; assumption.
Qed.

End DateTimeFacts.

(** ** The slot search loop *)

Module CalendarFacts.

Import DateTime DateTimeFacts Calendar.
Open Scope Z_scope.
Open Scope result_scope.

Lemma candidate_0 (b : datetime) : valid_time b -> candidate b 0 = b.
Proof. intros V. unfold candidate, timedelta_hours. simpl. apply shift_0, V. Qed.

Lemma candidate_S (b : datetime) (k : nat) :
  candidate b (S k) = candidate (shift b (timedelta_hours 1)) k.
Proof.
  unfold candidate. rewrite shift_shift. f_equal.
  unfold timedelta_hours. lia.
Qed.

Lemma valid_time_candidate (b : datetime) (k : nat) : valid_time (candidate b k).
Proof. apply valid_time_shift. Qed.

Lemma to_us_candidate (b : datetime) (k : nat) :
  to_us (candidate b k) = to_us b + Z.of_nat k * US_PER_HOUR.
Proof. unfold candidate. rewrite to_us_shift. reflexivity. Qed.

Lemma steps_S (check_end cur : datetime) :
  to_us cur < to_us check_end ->
  steps check_end cur = S (steps check_end (shift cur (timedelta_hours 1))).
Proof.
  intros L. unfold steps. rewrite to_us_shift.
  unfold timedelta_hours, US_PER_HOUR.
  replace (to_us check_end - to_us cur + 3600000000 - 1)
    with ((to_us check_end - (to_us cur + 1 * 3600000000) + 3600000000 - 1)
          + 1 * 3600000000) by lia.
  rewrite Z.div_add by lia.
  rewrite Z2Nat.inj_add; [ | | lia].
  - simpl. lia.
  - apply Z.div_pos; lia.
Qed.

Lemma slot_loop_done (c : client) (d : Z) (check_end cur : datetime) (n : nat) :
  ltb cur check_end = false -> slot_loop c d check_end n cur = Ok None.
Proof. intros E. destruct n; simpl; rewrite E; reflexivity. Qed.

(** The equation of the [while] loop: the bound on the iterations never
    cuts the loop short. *)
Lemma search_loop (c : client) (d : Z) (check_end cur : datetime) :
  valid_time check_end -> valid_time cur ->
  search c d check_end cur =
    if ltb cur check_end then
      free <- judged c d cur ;;
      if free then Ok (Some cur)
      else
        next <- add cur (timedelta_hours 1) ;;
        search c d check_end next
    else Ok None.
Proof.
  intros Ve Vc. unfold search.
  destruct (ltb cur check_end) eqn:E.
  - rewrite ltb_to_us in E by assumption. apply Z.ltb_lt in E.
    rewrite (steps_S _ _ E). cbn [slot_loop].
    rewrite ltb_to_us by assumption.
    destruct (Z.ltb_spec (to_us cur) (to_us check_end)); [ | lia].
    unfold judged.
    destruct (timedelta_minutes d) as [td | e]; cbn [rbind]; [ | reflexivity].
    destruct (add cur td) as [slot_end | e]; cbn [rbind]; [ | reflexivity].
    destruct (is_available c cur slot_end) as [[ | ] | e]; cbn [rbind];
      try reflexivity.
    destruct (add cur (timedelta_hours 1)) as [next | e] eqn:A; cbn [rbind];
      [ | reflexivity].
    apply add_ok in A. destruct A as [-> _]. reflexivity.
  - apply slot_loop_done; assumption.
Qed.

(** A slot that is returned is a candidate before the horizon that was
    judged free, and every earlier candidate was judged busy. *)
Lemma slot_loop_some (c : client) (d : Z) (check_end : datetime) :
  forall (n : nat) (cur r : datetime),
    valid_time cur ->
    slot_loop c d check_end n cur = Ok (Some r) ->
    exists k : nat,
      r = candidate cur k
      /\ ltb r check_end = true
      /\ judged c d r = Ok true
      /\ forall j : nat, (j < k)%nat -> judged c d (candidate cur j) = Ok false.
Proof.
  induction n as [ | n IH]; intros cur r V; cbn [slot_loop].
  - destruct (ltb cur check_end); discriminate.
  - destruct (ltb cur check_end) eqn:E; [ | discriminate].
    destruct (timedelta_minutes d) as [td | e] eqn:T; cbn [rbind]; [ | discriminate].
    destruct (add cur td) as [slot_end | e] eqn:A; cbn [rbind]; [ | discriminate].
    destruct (is_available c cur slot_end) as [[ | ] | e] eqn:I; cbn [rbind];
      [ | | discriminate].
    + intros H; inversion H; subst r. exists 0%nat.
      rewrite candidate_0 by assumption.
      repeat split; auto.
      * unfold judged. rewrite T; cbn [rbind]. rewrite A; cbn [rbind]. exact I.
      * intros j Hj. lia.
    + destruct (add cur (timedelta_hours 1)) as [next | e] eqn:N; cbn [rbind];
        [ | discriminate].
      apply add_ok in N. destruct N as [-> _]. intros H.
      destruct (IH _ _ (valid_time_shift _ _) H) as (k & Hr & Hl & Hj & Hb).
      exists (S k). rewrite candidate_S. repeat split; auto.
      intros [ | j] Hlt.
      * rewrite candidate_0 by assumption.
        unfold judged. rewrite T; cbn [rbind]. rewrite A; cbn [rbind]. exact I.
      * rewrite candidate_S. apply Hb. lia.
Qed.

(** When no slot is returned, every candidate before the horizon was
    judged busy. *)
Lemma slot_loop_none (c : client) (d : Z) (check_end : datetime) :
  valid_time check_end ->
  forall (n : nat) (cur : datetime),
    valid_time cur ->
    steps check_end cur = n ->
    slot_loop c d check_end n cur = Ok None ->
    forall k : nat,
      ltb (candidate cur k) check_end = true ->
      judged c d (candidate cur k) = Ok false.
Proof.
  intros Ve. induction n as [ | n IH]; intros cur V St H k L;
    rewrite ltb_to_us in L by (auto using valid_time_candidate);
    apply Z.ltb_lt in L; rewrite to_us_candidate in L;
    unfold US_PER_HOUR in L.
  - exfalso. unfold steps, US_PER_HOUR in St.
    assert (0 < (to_us check_end - to_us cur + 3600000000 - 1) / 3600000000).
    { apply Z.div_str_pos. lia. }
    lia.
  - cbn [slot_loop rbind] in H.
    destruct (ltb cur check_end) eqn:E.
    2:{ rewrite ltb_to_us in E by assumption. apply Z.ltb_ge in E. lia. }
    rewrite ltb_to_us in E by assumption. apply Z.ltb_lt in E.
    rewrite (steps_S _ _ E) in St. injection St as St.
    destruct (timedelta_minutes d) as [td | e] eqn:T; cbn [rbind] in H;
      [ | discriminate].
    destruct (add cur td) as [slot_end | e] eqn:A; cbn [rbind] in H; [ | discriminate].
    destruct (is_available c cur slot_end) as [[ | ] | e] eqn:I; cbn [rbind] in H;
      try discriminate.
    destruct (add cur (timedelta_hours 1)) as [next | e] eqn:N; cbn [rbind] in H;
      [ | discriminate].
    apply add_ok in N. destruct N as [-> _].
    destruct k as [ | k].
    + rewrite candidate_0 by assumption.
      unfold judged. rewrite T; cbn [rbind]. rewrite A; cbn [rbind]. exact I.
    + rewrite candidate_S.
      apply (IH _ (valid_time_shift _ _) St H).
      rewrite ltb_to_us by (auto using valid_time_candidate).
      apply Z.ltb_lt. rewrite to_us_candidate, to_us_shift.
      unfold timedelta_hours, US_PER_HOUR. lia.
Qed.

(** *** Rounding to the boundary *)

Ltac split_tests :=
  repeat match goal with
         | |- context [?a <=? ?b] => destruct (Z.leb_spec a b)
         | |- context [?a <? ?b] => destruct (Z.ltb_spec a b)
         end;
  cbn [negb andb rbind minute hour second microsecond day] in *.

(** Before 23:30 the rounding gives the half hour of the same hour when
    the minute is below 30, and the next full hour otherwise. *)
Lemma round_up_ok (now : datetime) :
  valid_time now ->
  hour now < 23 \/ minute now < 30 ->
  exists b : datetime,
    round_up now = Ok b
    /\ day b = day now /\ second b = 0 /\ microsecond b = 0
    /\ (minute now < 30 -> hour b = hour now /\ minute b = 30)
    /\ (30 <= minute now -> hour b = hour now + 1 /\ minute b = 0)
    /\ valid_time b.
Proof.
  destruct now as [dy h m s u]. unfold valid_time; simpl. intros V B.
  unfold round_up, replace, in_range; simpl.
  split_tests; try lia.
  all: split_tests; try lia.
  all: eexists; split; [reflexivity | ]; simpl; unfold valid_time; simpl; lia.
Qed.

(** From 23:30 on the rounding asks for hour 24 and raises. *)
Lemma round_up_raises (now : datetime) :
  valid_time now ->
  hour now = 23 -> 30 <= minute now ->
  round_up now = Raise (Exn ValueError "hour must be in 0..23").
Proof.
  destruct now as [dy h m s u]. unfold valid_time; simpl. intros V H23 M.
  subst h. unfold round_up, replace, in_range; simpl.
  split_tests; try lia.
  all: split_tests; try lia; reflexivity.
Qed.

(** The boundary is the first half-hour mark strictly after [now]. *)
Lemma round_up_next (now b : datetime) :
  valid_time now ->
  round_up now = Ok b ->
  to_us now < to_us b <= to_us now + 30 * US_PER_MINUTE
  /\ (minute b = 0 \/ minute b = 30) /\ second b = 0 /\ microsecond b = 0
  /\ valid_time b.
Proof.
  intros V R.
  destruct (Z.lt_ge_cases (hour now) 23) as [Hh | Hh];
    [ | destruct (Z.lt_ge_cases (minute now) 30) as [Hm | Hm] ].
  3:{ rewrite round_up_raises in R; [discriminate | assumption | | assumption].
      unfold valid_time in V; lia. }
  all: destruct (round_up_ok now V ltac:(lia))
      as (b' & R' & D & S0 & U0 & Lo & Hi & Vb);
    rewrite R' in R; inversion R; subst b';
    destruct now as [dy h m s u], b as [dy' h' m' s' u'];
    unfold valid_time, to_us, US_PER_MINUTE in *; simpl in *;
    destruct (Z.lt_ge_cases m 30) as [Hm' | Hm'];
    [ destruct (Lo Hm') | destruct (Hi Hm') ]; subst; lia.
Qed.

(** *** The search as a whole *)

Lemma add_in_range (d : datetime) (td : timedelta) :
  US_PER_DAY <= to_us d + td < (MAXORDINAL + 1) * US_PER_DAY ->
  add d td = Ok (shift d td).
Proof.
  intros B. unfold add.
  pose proof (to_us_shift d td) as E.
  pose proof (valid_time_shift d td) as V.
  destruct (shift d td) as [dy h m s u].
  unfold in_range, valid_time, to_us, US_PER_DAY, MAXORDINAL in *; simpl in *.
  destruct (Z.leb_spec 1 dy); [ | lia].
  destruct (Z.leb_spec dy 3652059); [reflexivity | lia].
Qed.

(** [is_available] passes on no exception but those the provider's query
    raises outside [HttpError]. *)
Lemma is_available_returns (c : client) (s e : datetime) :
  (forall ids x, freebusy_query c s e ids = Raise x -> is_http_error x = true) ->
  exists b : bool, is_available c s e = Ok b.
Proof.
  intros Hq. unfold is_available, get_free_busy_info.
  destruct (negb (authenticated c) && negb (authenticate c)); cbn [rbind].
  - exists true. reflexivity.
  - destruct (freebusy_query c s e ["primary"]) as [fb | x] eqn:Q.
    + cbn [rbind]. destruct (calendars fb); eauto.
    + rewrite (Hq _ _ Q). cbn [rbind]. exists true. reflexivity.
Qed.

Lemma slot_loop_returns (c : client) (d : Z) (td : timedelta)
    (check_end : datetime) :
  valid_time check_end ->
  timedelta_minutes d = Ok td -> 0 <= td ->
  to_us check_end + td < (MAXORDINAL + 1) * US_PER_DAY ->
  to_us check_end + US_PER_HOUR < (MAXORDINAL + 1) * US_PER_DAY ->
  (forall s e ids x,
      freebusy_query c s e ids = Raise x -> is_http_error x = true) ->
  forall (n : nat) (cur : datetime),
    valid_time cur -> US_PER_DAY <= to_us cur ->
    exists o, slot_loop c d check_end n cur = Ok o.
Proof.
  intros Ve T Tpos B1 B2 Hq.
  induction n as [ | n IH]; intros cur V Lo; cbn [slot_loop].
  - destruct (ltb cur check_end); eauto.
  - destruct (ltb cur check_end) eqn:E; [ | eauto].
    rewrite ltb_to_us in E by assumption. apply Z.ltb_lt in E.
    rewrite T; cbn [rbind].
    rewrite add_in_range by lia. cbn [rbind].
    destruct (is_available_returns c cur (shift cur td)) as [[ | ] ->];
      [intros; eapply Hq; eassumption | cbn [rbind]; eauto | cbn [rbind]].
    rewrite add_in_range
      by (unfold timedelta_hours, US_PER_HOUR in *; lia).
    cbn [rbind]. apply IH; [apply valid_time_shift | ].
    rewrite to_us_shift. unfold timedelta_hours, US_PER_HOUR. lia.
Qed.

(** X4. Outside the last half hour of the day, and away from the end of
    the datetime range, the search returns: a slot or [None]. *)
Lemma get_next_free_slot_returns (c : client) (now : datetime) (d : Z) :
  valid now ->
  hour now < 23 \/ minute now < 30 ->
  0 <= d -> day now + 9 + d / 1440 <= MAXORDINAL ->
  (forall s e ids x,
      freebusy_query c s e ids = Raise x -> is_http_error x = true) ->
  exists o, get_next_free_slot c now d = Ok o.
Proof.
  intros [Dn V] B Dpos Dmax Hq. unfold get_next_free_slot.
  assert (Hn : day now * US_PER_DAY <= to_us now < (day now + 1) * US_PER_DAY).
  { destruct now as [dy h m s u].
    unfold valid_time, to_us, US_PER_DAY in *; simpl in *. lia. }
  pose proof (Z.div_mod d 1440 ltac:(lia)) as Dm.
  pose proof (Z.mod_pos_bound d 1440 ltac:(lia)) as Db.
  assert (Q0 : 0 <= d / 1440) by (apply Z.div_pos; lia).
  unfold MAXORDINAL, US_PER_DAY in *.
  rewrite add_in_range
    by (unfold timedelta_days, MAXORDINAL, US_PER_DAY; lia).
  cbn [rbind].
  destruct (round_up_ok now V B) as (b & R & _).
  rewrite R. cbn [rbind].
  destruct (round_up_next now b V R) as (Hb & _ & _ & _ & Vb).
  unfold search.
  apply (slot_loop_returns c d (d * US_PER_MINUTE)); auto.
  - apply valid_time_shift.
  - unfold timedelta_minutes, in_range.
    destruct (Z.leb_spec (-999999999) (d / 1440)); [ | lia].
    destruct (Z.leb_spec (d / 1440) 999999999); [reflexivity | lia].
  - unfold US_PER_MINUTE. lia.
  - rewrite to_us_shift.
    unfold timedelta_days, MAXORDINAL, US_PER_DAY, US_PER_MINUTE. lia.
  - rewrite to_us_shift.
    unfold timedelta_days, MAXORDINAL, US_PER_DAY, US_PER_HOUR. lia.
  - unfold US_PER_DAY. lia.
Qed.

(** X2. A returned slot: the boundary plus a whole number of hours,
    strictly before [now + 7 days], judged free after every earlier
    candidate was judged busy; it lies on a full or half hour. *)
Lemma get_next_free_slot_found (c : client) (now r : datetime) (d : Z) :
  valid_time now ->
  get_next_free_slot c now d = Ok (Some r) ->
  exists (b : datetime) (k : nat),
    round_up now = Ok b
    /\ r = candidate b k
    /\ to_us r < to_us now + timedelta_days 7
    /\ judged c d r = Ok true
    /\ (forall j : nat, (j < k)%nat -> judged c d (candidate b j) = Ok false)
    /\ (minute r = 0 \/ minute r = 30) /\ second r = 0 /\ microsecond r = 0.
Proof.
  intros V. unfold get_next_free_slot.
  destruct (add now (timedelta_days 7)) as [check_end | e] eqn:A;
    cbn [rbind]; [ | discriminate].
  apply add_ok in A. destruct A as [-> _].
  destruct (round_up now) as [b | e] eqn:R; cbn [rbind]; [ | discriminate].
  destruct (round_up_next now b V R) as (_ & Mb & Sb & Ub & Vb).
  unfold search. intros H.
  destruct (slot_loop_some _ _ _ _ _ _ Vb H) as (k & Hr & Hl & Hj & Hbusy).
  exists b, k. split; [reflexivity | ]. split; [assumption | ].
  split.
  { rewrite ltb_to_us in Hl
      by (subst r; auto using valid_time_candidate, valid_time_shift).
    apply Z.ltb_lt in Hl. rewrite to_us_shift in Hl. exact Hl. }
  split; [assumption | ]. split; [assumption | ].
  destruct (shift_hours_fields b (Z.of_nat k) Vb) as (Hm & Hs & Hu).
  subst r. unfold candidate. rewrite Hm, Hs, Hu. auto.
Qed.

(** X3. When the search returns [None], every candidate strictly before
    [now + 7 days] was judged busy. *)
Lemma get_next_free_slot_none (c : client) (now : datetime) (d : Z) :
  valid_time now ->
  get_next_free_slot c now d = Ok None ->
  exists b : datetime,
    round_up now = Ok b
    /\ forall k : nat,
         to_us (candidate b k) < to_us now + timedelta_days 7 ->
         judged c d (candidate b k) = Ok false.
Proof.
  intros V. unfold get_next_free_slot.
  destruct (add now (timedelta_days 7)) as [check_end | e] eqn:A;
    cbn [rbind]; [ | discriminate].
  apply add_ok in A. destruct A as [-> _].
  destruct (round_up now) as [b | e] eqn:R; cbn [rbind]; [ | discriminate].
  destruct (round_up_next now b V R) as (_ & _ & _ & _ & Vb).
  unfold search. intros H. exists b. split; [reflexivity | ].
  intros k Hk.
  apply (slot_loop_none c d _ (valid_time_shift _ _) _ _ Vb eq_refl H).
  rewrite ltb_to_us by auto using valid_time_candidate, valid_time_shift.
  apply Z.ltb_lt. rewrite to_us_shift. exact Hk.
Qed.

(** *** The search on the sample calendars *)

Example free_calendar_mid_morning :
  get_next_free_slot always_free mid_morning 60
  = Ok (Some (mkDatetime 739924 10 30 0 0)).
Proof. vm_compute. reflexivity. Qed.

Example busy_calendar_mid_morning :
  get_next_free_slot busy_two_days mid_morning 60
  = Ok (Some (mkDatetime 739926 0 30 0 0)).
Proof. vm_compute. reflexivity. Qed.

Example provider_down_mid_morning :
  is_available provider_down mid_morning (shift mid_morning (timedelta_hours 2))
  = Ok true.
Proof. vm_compute. reflexivity. Qed.

Example returns_mid_morning :
  exists o, get_next_free_slot busy_two_days mid_morning 60 = Ok o.
Proof.
  apply get_next_free_slot_returns.
  - unfold valid, valid_time, MAXORDINAL; simpl; lia.
  - simpl; lia.
  - lia.
  - vm_compute; discriminate.
  - intros s e ids x. simpl. destruct (day s <=? 739925); discriminate.
Defined.

(** C2. [get_next_free_slot] at 23:45:10 neither returns a slot nor
    reports that none was found: for every calendar and every duration it
    raises [ValueError] while rounding, and the tool answers with the
    failure message. *)
Theorem get_next_free_slot_raises_late_evening :
  (forall (c : client) (duration_minutes : Z),
      get_next_free_slot c late_evening duration_minutes
      = Raise (Exn ValueError "hour must be in 0..23"))
  /\ tool_get_next_free_slot always_free late_evening 60
     = FailedToFindFreeSlot "hour must be in 0..23".
Proof. split; [intros c d | ]; reflexivity. Qed.

(** C3. The rounding step at 23:45:10 raises [ValueError]: it asks
    [replace] for hour 24 instead of rolling over to the next day. *)
Theorem round_up_raises_late_evening :
  valid late_evening
  /\ round_up late_evening = Raise (Exn ValueError "hour must be in 0..23").
Proof.
  split; [ | reflexivity].
  unfold valid, valid_time, MAXORDINAL; simpl; lia.
Qed.

(** *** The availability judgement *)

Lemma is_available_reported (c : client) (s e : datetime) :
  is_available c s e =
    (fb <- get_free_busy_info c s e ;;
     Ok (match reported_busy fb with [] => true | _ :: _ => false end)).
Proof.
  unfold is_available, reported_busy.
  destruct (get_free_busy_info c s e) as [fb | x]; cbn [rbind];
    [ | reflexivity].
  destruct (calendars fb) as [cals | ]; [ | reflexivity].
  destruct (busy (dict_get cals "primary" {| busy := None |})) as [[ | ? ?] | ];
    reflexivity.
Qed.

(** The free/busy query is made for the window and the primary calendar;
    an answer of the provider is handed on unchanged. *)
Lemma get_free_busy_info_primary (c : client) (s e : datetime) (fb : free_busy) :
  authenticated c = true \/ authenticate c = true ->
  freebusy_query c s e ["primary"] = Ok fb ->
  get_free_busy_info c s e = Ok fb.
Proof.
  intros A Q. unfold get_free_busy_info. rewrite Q.
  destruct A as [-> | ->]; destruct (authenticated c); reflexivity.
Qed.

(** [is_available] in terms of what the provider answers to the query
    for the window and the primary calendar. *)
Lemma is_available_provider (c : client) (s e : datetime) :
  is_available c s e =
    if negb (authenticated c) && negb (authenticate c) then Ok true
    else
      match freebusy_query c s e ["primary"] with
      | Ok fb => Ok (match reported_busy fb with [] => true | _ :: _ => false end)
      | Raise x => if is_http_error x then Ok true else Raise x
      end.
Proof.
  rewrite is_available_reported. unfold get_free_busy_info.
  destruct (negb (authenticated c) && negb (authenticate c)); [reflexivity | ].
  destruct (freebusy_query c s e ["primary"]) as [fb | x]; [reflexivity | ].
  destruct (is_http_error x); reflexivity.
Qed.

(** A slot found from the next candidate on is not the candidate the
    loop is at. *)
Lemma later_slot_differs (c : client) (d : Z) (check_end cur r : datetime) :
  search c d check_end (shift cur (timedelta_hours 1)) = Ok (Some r) ->
  r <> cur.
Proof.
  unfold search. intros H.
  destruct (slot_loop_some _ _ _ _ _ _ (valid_time_shift _ _) H) as (k & Hr & _).
  intros E. subst r. apply (f_equal to_us) in E.
  rewrite to_us_candidate, to_us_shift in E.
  unfold timedelta_hours, US_PER_HOUR in E. lia.
Qed.

(** C7, as stated, fails when the provider is down: the query for the
    window of the first candidate, against the primary calendar, raises
    [HttpError] and so reports nothing, no busy interval and no free
    time either, and yet the search judges the candidate available and
    returns it. *)
Lemma available_without_report :
  get_next_free_slot provider_down mid_morning 60
  = Ok (Some (mkDatetime 739924 10 30 0 0))
  /\ search provider_down 60 (shift mid_morning (timedelta_days 7))
       (mkDatetime 739924 10 30 0 0)
     = Ok (Some (mkDatetime 739924 10 30 0 0))
  /\ freebusy_query provider_down (mkDatetime 739924 10 30 0 0)
       (mkDatetime 739924 11 30 0 0) ["primary"]
     = Raise (Exn HttpError "503")
  /\ ~ (exists fb,
          freebusy_query provider_down (mkDatetime 739924 10 30 0 0)
            (mkDatetime 739924 11 30 0 0) ["primary"] = Ok fb
          /\ reported_busy fb = []).
Proof.
  split; [vm_compute; reflexivity | ].
  split; [vm_compute; reflexivity | ].
  split; [reflexivity | ].
  intros (fb & Q & _). discriminate.
Qed.

(** C7, amended. The search, standing at a candidate [cur] before the
    horizon, judges the window from [cur] to [cur + duration] and
    returns [cur] if and only if one of three things holds: the client
    is not signed in and cannot sign in, so that no query is made; the
    free/busy query for that window against the primary calendar raises
    [HttpError]; or that query answers and its answer lists no busy
    interval for the primary calendar (an answer without [calendars],
    without an entry for [primary] or without [busy] lists none). When a
    signed-in client gets an answer that lists a busy interval, the
    search moves on to the candidate one hour later. *)
Theorem candidate_accepted_iff_no_busy_or_no_answer
    (c : client) (duration_minutes : Z) (check_end cur slot_end : datetime)
    (td : timedelta) :
  valid_time check_end -> valid_time cur ->
  ltb cur check_end = true ->
  timedelta_minutes duration_minutes = Ok td ->
  add cur td = Ok slot_end ->
  (search c duration_minutes check_end cur = Ok (Some cur)
   <-> (authenticated c = false /\ authenticate c = false)
       \/ (exists x, freebusy_query c cur slot_end ["primary"] = Raise x
                     /\ is_http_error x = true)
       \/ (exists fb, freebusy_query c cur slot_end ["primary"] = Ok fb
                      /\ reported_busy fb = []))
  /\ (authenticated c = true \/ authenticate c = true ->
      forall fb,
        freebusy_query c cur slot_end ["primary"] = Ok fb ->
        reported_busy fb <> [] ->
        search c duration_minutes check_end cur
        = (next <- add cur (timedelta_hours 1) ;;
           search c duration_minutes check_end next)).
Proof.
  intros Ve Vc L T A.
  rewrite (search_loop c duration_minutes check_end cur Ve Vc), L.
  unfold judged. rewrite T; cbn [rbind]. rewrite A; cbn [rbind].
  rewrite is_available_provider.
  destruct (negb (authenticated c) && negb (authenticate c)) eqn:S.
  - apply andb_true_iff in S. destruct S as [Sa Sb].
    apply negb_true_iff in Sa, Sb. cbn [rbind]. split.
    + split; [intros _; left; auto | reflexivity].
    + intros [H | H]; congruence.
  - assert (Sn : ~ (authenticated c = false /\ authenticate c = false)).
    { intros [Ha Hb]. rewrite Ha, Hb in S. discriminate. }
    destruct (freebusy_query c cur slot_end ["primary"]) as [fb | x] eqn:Q.
    + destruct (reported_busy fb) as [ | slot slots] eqn:R; cbn [rbind]; split.
      * split; [intros _; right; right; exists fb; auto | reflexivity].
      * intros _ fb' E Hne. inversion E; subst fb'. contradiction.
      * split.
        -- intros H. exfalso.
           destruct (add cur (timedelta_hours 1)) as [next | e] eqn:N;
             cbn [rbind] in H; [ | discriminate].
           apply add_ok in N. destruct N as [-> _].
           exact (later_slot_differs _ _ _ _ _ H eq_refl).
        -- intros [H | [(x & H & _) | (fb' & H & H')]];
             [contradiction | discriminate | ].
           inversion H; subst fb'. congruence.
      * intros _ fb' _ _. reflexivity.
    + destruct (is_http_error x) eqn:Hx; cbn [rbind]; split.
      * split; [intros _; right; left; exists x; auto | reflexivity].
      * intros _ fb E. discriminate.
      * split; [discriminate | ].
        intros [H | [(x' & H & H') | (fb & H & _)]];
          [contradiction | | discriminate].
        inversion H; subst x'. congruence.
      * intros _ fb E. discriminate.
Qed.

Lemma candidate_accepted_iff_no_busy_or_no_answer_witness :
  search provider_down 60 (shift mid_morning (timedelta_days 7))
    (mkDatetime 739924 10 30 0 0)
  = Ok (Some (mkDatetime 739924 10 30 0 0))
  /\ search busy_two_days 60 (shift mid_morning (timedelta_days 7))
       (mkDatetime 739924 10 30 0 0)
     = (next <- add (mkDatetime 739924 10 30 0 0) (timedelta_hours 1) ;;
        search busy_two_days 60 (shift mid_morning (timedelta_days 7)) next).
Proof.
  split.
  - apply (candidate_accepted_iff_no_busy_or_no_answer provider_down 60
             (shift mid_morning (timedelta_days 7))
             (mkDatetime 739924 10 30 0 0) (mkDatetime 739924 11 30 0 0)
             (60 * US_PER_MINUTE));
      [ apply valid_time_shift | unfold valid_time; simpl; lia
      | reflexivity | reflexivity | reflexivity | ].
    right; left. exists (Exn HttpError "503"). split; reflexivity.
  - apply (candidate_accepted_iff_no_busy_or_no_answer busy_two_days 60
             (shift mid_morning (timedelta_days 7))
             (mkDatetime 739924 10 30 0 0) (mkDatetime 739924 11 30 0 0)
             (60 * US_PER_MINUTE)) with (fb := one_busy);
      [ apply valid_time_shift | unfold valid_time; simpl; lia
      | reflexivity | reflexivity | reflexivity
      | left; reflexivity | reflexivity | discriminate ].
Defined.

End CalendarFacts.

(** ** The string tests of the router *)

Module PyFacts.

Lemma startswith_spec (s p : string) :
  Py.startswith s p = true <-> exists rest, s = p ++ rest.
Proof.
  revert s. induction p as [ | a p IH]; intros s; simpl.
  - split; [intros _; exists s; reflexivity | destruct s; reflexivity].
  - destruct s as [ | b s].
    + simpl. split; [discriminate | intros [rest E]; discriminate].
    + simpl. rewrite andb_true_iff, Ascii.eqb_eq, IH. split.
      * intros [-> [rest ->]]. exists rest. reflexivity.
      * intros [rest E]. inversion E; subst. split; [reflexivity | eauto].
Qed.

Lemma startswith_app (p rest : string) : Py.startswith (p ++ rest) p = true.
Proof. apply startswith_spec. exists rest. reflexivity. Qed.

Lemma contains_spec (s p : string) :
  Py.contains s p = true <-> exists before after, s = before ++ p ++ after.
Proof.
  induction s as [ | c s IH].
  - cbn [Py.contains]. rewrite orb_false_r, startswith_spec. split.
    + intros [rest E]. exists "", rest. exact E.
    + intros ([ | ? ?] & after & E); [ | discriminate]. exists after. exact E.
  - cbn [Py.contains]. rewrite orb_true_iff, startswith_spec, IH. split.
    + intros [[rest E] | (before & after & E)].
      * exists "", rest. exact E.
      * exists (String c before), after. simpl. rewrite E. reflexivity.
    + intros ([ | b before] & after & E); simpl in E.
      * left. exists after. exact E.
      * right. inversion E; subst. exists before, after. reflexivity.
Qed.

(** A prefix is an occurrence: the first half of the router's memory
    test adds nothing to the second. *)
Lemma startswith_contains (s p : string) :
  Py.startswith s p = true -> Py.contains s p = true.
Proof.
  destruct s; cbn [Py.contains]; intros ->; reflexivity.
Qed.

(** Two prefixes of one string: one is a prefix of the other. *)
Lemma startswith_comparable (s p q : string) :
  Py.startswith s p = true -> Py.startswith s q = true ->
  Py.startswith p q = true \/ Py.startswith q p = true.
Proof.
  revert p q. induction s as [ | c s IH]; intros [ | a p] [ | b q]; simpl;
    auto; try discriminate.
  rewrite !andb_true_iff, !Ascii.eqb_eq.
  intros [-> Hp] [-> Hq]. destruct (IH p q Hp Hq); auto.
Qed.

Lemma startswith_other (s p q : string) :
  Py.startswith p q = false -> Py.startswith q p = false ->
  Py.startswith s p = true -> Py.startswith s q = false.
Proof.
  intros Hpq Hqp Hs. destruct (Py.startswith s q) eqn:E; [ | reflexivity].
  destruct (startswith_comparable s p q Hs E); congruence.
Qed.

Lemma startswith_not_eqb (s p q : string) :
  Py.startswith q p = false -> Py.startswith s p = true ->
  String.eqb s q = false.
Proof.
  intros Hq Hs. destruct (String.eqb_spec s q); [subst; congruence | reflexivity].
Qed.

Lemma in_list_spec (s : string) (xs : list string) :
  Py.in_list s xs = true <-> In s xs.
Proof.
  unfold Py.in_list. rewrite existsb_exists. split.
  - intros (x & Hx & E). apply String.eqb_eq in E. subst. exact Hx.
  - intros H. exists s. split; [exact H | apply String.eqb_refl].
Qed.

Lemma any_spec {A} (f : A -> bool) (xs : list A) :
  Py.any f xs = true <-> exists x, In x xs /\ f x = true.
Proof. apply existsb_exists. Qed.

(** The scan with [k] characters still to drop is the scan of the text
    without them. *)
Lemma remove_from_drop (old : string) (k : nat) (s : string) :
  Py.remove_from old k s = Py.remove_from old 0 (Py.drop k s).
Proof.
  revert k. induction s as [ | c s IH]; intros [ | k]; try reflexivity.
  cbn [Py.remove_from Py.drop]. apply IH.
Qed.

(** [s.replace(old, '')] from left to right: an occurrence at the front
    is dropped whole and the scan goes on behind it; otherwise the first
    character is kept and the scan goes on behind that. *)
Lemma replace_empty_step (s old : string) :
  old <> EmptyString ->
  Py.replace_empty s old =
    if Py.startswith s old
    then Py.replace_empty (Py.drop (String.length old) s) old
    else match s with
         | EmptyString => EmptyString
         | String c tl => String c (Py.replace_empty tl old)
         end.
Proof.
  destruct old as [ | a old]; [contradiction | intros _].
  unfold Py.replace_empty. destruct s as [ | c s]; [reflexivity | ].
  cbn [Py.remove_from].
  destruct (Py.startswith (String c s) (String a old)); [ | reflexivity].
  rewrite remove_from_drop.
  replace (String.length (String a old) - 1)%nat with (String.length old)
    by (simpl; lia).
  reflexivity.
Qed.

End PyFacts.

(** ** The router *)

Module RouterFacts.

Import Gateway Memory App PyFacts.

Lemma memory_match_iff (s : string) :
  memory_match s <->
  Py.any (fun pattern => Py.startswith s pattern || Py.contains s pattern)
         memory_patterns = true.
Proof.
  unfold memory_match, starts_with, occurs_in. rewrite any_spec.
  split; intros (p & Hp & H); exists p; (split; [exact Hp | ]).
  - apply orb_true_iff.
    destruct H as [H | H]; [left; apply startswith_spec | right; apply contains_spec];
      exact H.
  - apply orb_true_iff in H.
    destruct H as [H | H]; [left; apply startswith_spec | right; apply contains_spec];
      exact H.
Qed.

Lemma calendar_match_iff (s : string) :
  calendar_match s <->
  Py.any (fun pattern => Py.contains s pattern) calendar_patterns = true.
Proof.
  unfold calendar_match, occurs_in. rewrite any_spec.
  split; intros (p & Hp & H); exists p; (split; [exact Hp | ]);
    apply contains_spec; exact H.
Qed.

Lemma not_true_false (b : bool) (P : Prop) : (P <-> b = true) -> ~ P -> b = false.
Proof. intros I N. destruct b; [exfalso; apply N, I; reflexivity | reflexivity]. Qed.

(** The router does what the route of its input says. *)
Lemma process_user_input_dispatch (gw : gateway) (st : session) (t : string) :
  process_user_input gw st t
  = dispatch gw st t (classify t (calendar_authenticated st)).
Proof.
  unfold process_user_input, classify.
  destruct (Py.any _ memory_patterns); [reflexivity | ].
  destruct (Py.any _ calendar_patterns).
  - destruct (calendar_authenticated st); reflexivity.
  - destruct (Py.in_list _ ["help"; "commands"; "what can you do"]);
      [reflexivity | ].
    destruct (Py.in_list _ ["hello"; "hi"; "hey"; "greetings"]); reflexivity.
Qed.

(** The route of an input, rule by rule. *)
Lemma classify_rules (t : string) (auth : bool) :
  let s := Py.strip (Py.lower t) in
  (memory_match s -> classify t auth = ToMemoryHandler)
  /\ (~ memory_match s -> calendar_match s ->
      classify t auth =
        if auth then ToCalendarHandler else NotAuthenticatedMessage)
  /\ (~ memory_match s -> ~ calendar_match s ->
      In s ["help"; "commands"; "what can you do"] ->
      classify t auth = HelpMessage)
  /\ (~ memory_match s -> ~ calendar_match s ->
      ~ In s ["help"; "commands"; "what can you do"] ->
      In s ["hello"; "hi"; "hey"; "greetings"] ->
      classify t auth = GreetingMessage)
  /\ (~ memory_match s -> ~ calendar_match s ->
      ~ In s ["help"; "commands"; "what can you do"] ->
      ~ In s ["hello"; "hi"; "hey"; "greetings"] ->
      classify t auth = NotRecognizedMessage).
Proof.
  intros s. unfold classify. fold s.
  pose proof (memory_match_iff s) as Im.
  pose proof (calendar_match_iff s) as Ic.
  pose proof (in_list_spec s ["help"; "commands"; "what can you do"]) as Ih.
  pose proof (in_list_spec s ["hello"; "hi"; "hey"; "greetings"]) as Ig.
  repeat split.
  - intros M. apply Im in M. rewrite M. reflexivity.
  - intros M C. rewrite (not_true_false _ _ Im M).
    apply Ic in C. rewrite C. destruct auth; reflexivity.
  - intros M C H. rewrite (not_true_false _ _ Im M), (not_true_false _ _ Ic C).
    apply Ih in H. rewrite H. reflexivity.
  - intros M C H G. rewrite (not_true_false _ _ Im M), (not_true_false _ _ Ic C).
    rewrite (not_true_false _ _ (iff_sym Ih) H).
    apply Ig in G. rewrite G. reflexivity.
  - intros M C H G. rewrite (not_true_false _ _ Im M), (not_true_false _ _ Ic C).
    rewrite (not_true_false _ _ (iff_sym Ih) H).
    rewrite (not_true_false _ _ (iff_sym Ig) G). reflexivity.
Qed.

(** C1. The router applies the ordered decision rule to the lower-cased
    trimmed text [s]: (1) a phrase of the 17 memory phrases at the start
    of [s] or inside it sends the input to the memory handler; (2)
    otherwise one of the 19 calendar phrases inside [s] sends it to the
    calendar handler when the calendar is authenticated, and gives the
    not-authenticated message with no call when it is not; (3) otherwise
    [s] equal to a help word gives the help text; (4) otherwise [s] equal
    to a greeting word gives the greeting; (5) otherwise the input is not
    recognized. The fixed messages leave the log of calls as it was. *)
Theorem router_decision_rule (gw : gateway) (st : session) (t : string) :
  let s := Py.strip (Py.lower t) in
  List.length memory_patterns = 17%nat
  /\ List.length calendar_patterns = 19%nat
  /\ (memory_match s ->
      process_user_input gw st t = process_memory_query gw st t)
  /\ (~ memory_match s -> calendar_match s ->
      calendar_authenticated st = true ->
      process_user_input gw st t = process_calendar_query gw t)
  /\ (~ memory_match s -> calendar_match s ->
      calendar_authenticated st = false ->
      forall log, process_user_input gw st t log
                  = (Ok CalendarNotAuthenticated, log))
  /\ (~ memory_match s -> ~ calendar_match s ->
      In s ["help"; "commands"; "what can you do"] ->
      forall log, process_user_input gw st t log = (Ok HelpText, log))
  /\ (~ memory_match s -> ~ calendar_match s ->
      ~ In s ["help"; "commands"; "what can you do"] ->
      In s ["hello"; "hi"; "hey"; "greetings"] ->
      forall log, process_user_input gw st t log = (Ok Greeting, log))
  /\ (~ memory_match s -> ~ calendar_match s ->
      ~ In s ["help"; "commands"; "what can you do"] ->
      ~ In s ["hello"; "hi"; "hey"; "greetings"] ->
      forall log, process_user_input gw st t log
                  = (Ok CommandNotRecognized, log)).
Proof.
  intros s.
  destruct (classify_rules t (calendar_authenticated st))
    as (R1 & R2 & R3 & R4 & R5). fold s in R1, R2, R3, R4, R5.
  rewrite process_user_input_dispatch.
  split; [reflexivity | ]. split; [reflexivity | ].
  split; [intros M; rewrite (R1 M); reflexivity | ].
  split; [intros M C A; rewrite (R2 M C), A; reflexivity | ].
  split; [intros M C A log; rewrite (R2 M C), A; reflexivity | ].
  split; [intros M C H log; rewrite (R3 M C H); reflexivity | ].
  split; [intros M C H G log; rewrite (R4 M C H G); reflexivity | ].
  intros M C H G log; rewrite (R5 M C H G); reflexivity.
Qed.

Lemma router_decision_rule_witness :
  process_user_input (services mem0_up) student_signed_out "Am I FREE today?" []
  = (Ok CalendarNotAuthenticated, []).
Proof.
  destruct (router_decision_rule (services mem0_up) student_signed_out
              "Am I FREE today?") as (_ & _ & _ & _ & H & _).
  apply H.
  - intros M. apply memory_match_iff in M. vm_compute in M. discriminate.
  - apply calendar_match_iff. vm_compute. reflexivity.
  - reflexivity.
Defined.

(** Memory wins over calendar: a text with a phrase of each set goes to
    the memory handler. *)
Example memory_before_calendar :
  classify "Do you recall my meeting today?" true = ToMemoryHandler
  /\ classify "my meeting today" true = ToCalendarHandler.
Proof. split; vm_compute; reflexivity. Qed.

(** C9. Two invocations whose lower-cased trimmed texts are equal and
    whose authentication flags are equal take the same route, and each
    invocation does what its route says. *)
Theorem route_deterministic (gw : gateway) (st1 st2 : session) (t1 t2 : string) :
  Py.strip (Py.lower t1) = Py.strip (Py.lower t2) ->
  calendar_authenticated st1 = calendar_authenticated st2 ->
  classify t1 (calendar_authenticated st1)
  = classify t2 (calendar_authenticated st2)
  /\ process_user_input gw st1 t1
     = dispatch gw st1 t1 (classify t1 (calendar_authenticated st1))
  /\ process_user_input gw st2 t2
     = dispatch gw st2 t2 (classify t2 (calendar_authenticated st2)).
Proof.
  intros Ht Ha. split; [ | split; apply process_user_input_dispatch].
  unfold classify. rewrite Ht, Ha. reflexivity.
Qed.

Lemma route_deterministic_witness :
  classify "  Next FREE slot " false = classify "next free slot" false
  /\ process_user_input (services mem0_up) student_signed_out "  Next FREE slot "
     = dispatch (services mem0_up) student_signed_out "  Next FREE slot "
         (classify "  Next FREE slot " false)
  /\ process_user_input (services mem0_up) student_signed_out "next free slot"
     = dispatch (services mem0_up) student_signed_out "next free slot"
         (classify "next free slot" false).
Proof.
  apply (route_deterministic (services mem0_up) student_signed_out
           student_signed_out "  Next FREE slot " "next free slot");
    reflexivity.
Defined.

End RouterFacts.

(** ** The memory manager and the memory handler *)

Module MemoryFacts.

Import Gateway Memory App PyFacts.

(** Rewrites the tests on [s] that a known prefix [p] of [s] decides. *)
Ltac decide_tests H :=
  rewrite ?H;
  repeat match goal with
         | |- context [Py.startswith ?s ?q] =>
             lazymatch type of H with
             | Py.startswith s ?p = true =>
                 rewrite (startswith_other s p q eq_refl eq_refl H)
             end
         | |- context [String.eqb ?s ?q] =>
             lazymatch type of H with
             | Py.startswith s ?p = true =>
                 rewrite (startswith_not_eqb s p q eq_refl H)
             end
         end;
  cbn [orb andb negb].

Ltac run_monad :=
  cbv beta iota delta [run bind ret try_except invoke lift raise].

(** *** [search_memories] *)

Lemma search_memories_ok (cl : memory_client) (user query : string)
    (limit : Z) (th : Q) (raw : list memory) (log : list call) :
  client_search cl query user limit = Ok (DictValue (Some raw)) ->
  search_memories cl user query limit th log
  = (Ok (filter (fun m => Qle_bool th (score_of m)) raw),
     (log ++ [MemSearch query user limit])%list).
Proof.
  intros E. unfold search_memories. run_monad. rewrite E. reflexivity.
Qed.

(** The search never raises: a failure of the client, or an answer
    without [results], gives the empty list. *)
Lemma search_memories_returns (cl : memory_client) (user query : string)
    (limit : Z) (th : Q) (log : list call) :
  exists found,
    search_memories cl user query limit th log
    = (Ok found, (log ++ [MemSearch query user limit])%list).
Proof.
  unfold search_memories. run_monad.
  destruct (client_search cl query user limit) as [[[raw | ] | items] | e];
    cbn [subscript_results]; eauto.
Qed.

Lemma above_threshold_In (raw : list memory) (m : memory) :
  In m (above_threshold raw) <-> In m raw /\ (1 # 2 <= score_of m)%Q.
Proof.
  unfold above_threshold, threshold. rewrite filter_In, Qle_bool_iff.
  reflexivity.
Qed.

Lemma score_present (m : memory) :
  (1 # 2 <= score_of m)%Q ->
  exists s, mem_score m = Some s /\ (1 # 2 <= s)%Q.
Proof.
  unfold score_of. destruct (mem_score m) as [s | ]; intros H.
  - exists s. auto.
  - exfalso. revert H. apply Qlt_not_le. reflexivity.
Qed.

Lemma filter_length_lt {A} (f : A -> bool) (l : list A) :
  (exists x, In x l /\ f x = false) ->
  (List.length (filter f l) < List.length l)%nat.
Proof.
  induction l as [ | a l IH]; intros (x & Hx & Hf); [destruct Hx | ].
  simpl. pose proof (filter_length_le f l) as Hle.
  destruct Hx as [-> | Hx].
  - rewrite Hf. lia.
  - destruct (f a); simpl; [ | lia].
    apply -> Nat.succ_lt_mono. apply IH. eauto.
Qed.

Lemma long_query (q : string) :
  (1 < String.length q)%nat ->
  nonempty q && (1 <? String.length q)%nat = true.
Proof.
  intros H. destruct q as [ | c q]; [simpl in H; lia | ].
  cbn [nonempty andb]. apply Nat.ltb_lt. exact H.
Qed.

Lemma nonempty_long (q : string) : (1 < String.length q)%nat -> nonempty q = true.
Proof. intros H. destruct q; [simpl in H; lia | reflexivity]. Qed.

(** *** The two semantic searches *)

(** What the handler does on a recall with a query or a memory search,
    given what [search_memories] finds. *)
Lemma search_branch (gw : gateway) (st : session) (t : string)
    (k : search_kind) (log : list call) :
  let l := Py.strip (Py.lower t) in
  let q := search_query k l in
  memory_available st = true ->
  is_search k l = true ->
  (1 < String.length q)%nat ->
  process_memory_query gw st t log =
    match search_memories (mem0 gw) (user_id st) q (search_limit k)
            threshold log with
    | (Ok shown, log') => (Ok (search_reply k q shown), log')
    | (Raise e, log') => (Ok (MemorySystemError (exn_str e)), log')
    end.
Proof.
  intros l q Hm Hk Hq. unfold process_memory_query. fold l.
  rewrite Hm. cbn [negb].
  pose proof (long_query q Hq) as Hlong.
  pose proof (nonempty_long q Hq) as Hne.
  destruct k; cbn [is_search] in Hk; apply orb_true_iff in Hk;
    destruct Hk as [Hk | Hk]; decide_tests Hk;
    unfold q, search_query in *; fold l in Hlong, Hne |- *;
    rewrite Hlong; cbn [search_limit]; run_monad;
    match goal with
    | |- context [search_memories ?a ?b ?c ?d ?e ?f] =>
        destruct (search_memories a b c d e f) as [[[ | m shown] | e'] log']
    end;
    cbn [nonempty_list andb List.length Nat.ltb Nat.leb search_reply];
    rewrite ?Hne; reflexivity.
Qed.

(** C4. On a recall with a query and on a memory search, the list shown
    to the user is the raw result list of the service cut at a score of
    0.5: every shown record carries a score of at least 0.5, no raw
    record with a lower score is shown, every raw record with a score of
    at least 0.5 is shown, and the count is below the raw count as soon
    as one raw record falls under the threshold. The service is asked
    for 10 results on a recall and for 5 on a memory search. *)
Theorem search_shows_filtered (gw : gateway) (st : session) (t : string)
    (k : search_kind) (raw : list memory) :
  let l := Py.strip (Py.lower t) in
  let q := search_query k l in
  memory_available st = true ->
  is_search k l = true ->
  (1 < String.length q)%nat ->
  client_search (mem0 gw) q (user_id st) (search_limit k)
  = Ok (DictValue (Some raw)) ->
  let shown := above_threshold raw in
  run (process_memory_query gw st t)
  = (Ok (search_reply k q shown), [MemSearch q (user_id st) (search_limit k)])
  /\ (forall m, In m shown -> exists s, mem_score m = Some s /\ (1 # 2 <= s)%Q)
  /\ (forall m, In m raw -> (score_of m < 1 # 2)%Q -> ~ In m shown)
  /\ (forall m, In m raw -> (1 # 2 <= score_of m)%Q -> In m shown)
  /\ (List.length shown <= List.length raw)%nat
  /\ ((exists m, In m raw /\ (score_of m < 1 # 2)%Q) ->
      (List.length shown < List.length raw)%nat).
Proof.
  intros l q Hm Hk Hq Hc shown. repeat split.
  - unfold run. rewrite (search_branch gw st t k [] Hm Hk Hq). fold l q.
    rewrite (search_memories_ok _ _ _ _ _ raw [] Hc). reflexivity.
  - intros m Hin. apply above_threshold_In in Hin. apply score_present, Hin.
  - intros m _ Hlow Hin. apply above_threshold_In in Hin.
    destruct Hin as [_ Hhigh]. exact (Qlt_not_le _ _ Hlow Hhigh).
  - intros m Hin Hhigh. apply above_threshold_In. auto.
  - apply filter_length_le.
  - intros (m & Hin & Hlow). apply filter_length_lt. exists m.
    split; [exact Hin | ].
    unfold threshold. destruct (Qle_bool (1 # 2) (score_of m)) eqn:E;
      [ | reflexivity].
    apply Qle_bool_iff in E. exfalso. exact (Qlt_not_le _ _ Hlow E).
Qed.

Lemma search_shows_filtered_witness :
  run (process_memory_query (services mem0_up) student "RECALL project")
  = (Ok (MemoriesAbout "project"
           [ scored "a1" "project deadline is friday" (9 # 10);
             scored "d4" "project budget" (1 # 2) ]),
     [MemSearch "project" "student_001" 10]).
Proof.
  apply (search_shows_filtered (services mem0_up) student "RECALL project"
           RecallQuery raw_hits); try reflexivity.
  vm_compute. lia.
Defined.

Example search_memory_fewer_than_limit :
  run (process_memory_query (services mem0_up) student "search memory project")
  = (Ok (MemorySearchResults "project"
           [ scored "a1" "project deadline is friday" (9 # 10);
             scored "d4" "project budget" (1 # 2) ]),
     [MemSearch "project" "student_001" 5])
  /\ List.length raw_hits = 5%nat
  /\ List.length (above_threshold raw_hits) = 2%nat.
Proof. repeat split; vm_compute; reflexivity. Qed.

(** *** Storing a memory *)

(** What the handler does on [remember that ...], [remember i ...] and
    [remember to ...]: the phrase [p] is deleted wherever it occurs in
    the text as typed, with the case as typed. *)
Lemma remember_branch (gw : gateway) (st : session) (t p : string)
    (log : list call) :
  let l := Py.strip (Py.lower t) in
  let memory_content := Py.strip (Py.replace_empty t p) in
  memory_available st = true ->
  In p ["remember that"; "remember i"; "remember to"] ->
  Py.startswith l (p ++ " ") = true ->
  process_memory_query gw st t log =
    if (5 <? String.length memory_content)%nat then
      match client_add (mem0 gw) (user_id st) memory_content "user_preference"
      with
      | Ok _ =>
          (Ok (MemoryStored memory_content),
           (log ++ [MemAdd (user_id st) memory_content "user_preference"])%list)
      | Raise e =>
          (Ok (MemoryError (exn_str e)),
           (log ++ [MemAdd (user_id st) memory_content "user_preference"])%list)
      end
    else (Ok InvalidMemory, log).
Proof.
  intros l memory_content Hm Hp Hs. unfold process_memory_query. fold l.
  rewrite Hm. cbn [negb].
  assert (Hne : forall c : string,
             nonempty c && (5 <? String.length c)%nat
             = (5 <? String.length c)%nat).
  { intros [ | ? ?]; reflexivity. }
  destruct Hp as [<- | [<- | [<- | []]]]; cbn [String.append] in Hs;
    decide_tests Hs; fold memory_content; rewrite Hne;
    unfold add_memory; run_monad;
    destruct (5 <? String.length memory_content)%nat; try reflexivity;
    destruct (client_add _ _ _ _); reflexivity.
Qed.

Example remember_lower_case :
  run (process_user_input (services mem0_up) student "remember that buy milk")
  = (Ok (MemoryStored "buy milk"),
     [MemAdd "student_001" "buy milk" "user_preference"]).
Proof. vm_compute. reflexivity. Qed.

Example remember_too_short :
  run (process_user_input (services mem0_up) student "remember to nap")
  = (Ok InvalidMemory, []).
Proof. vm_compute. reflexivity. Qed.

Example remember_phrase_twice :
  run (process_user_input (services mem0_up) student
         "remember that i said remember that twice")
  = (Ok (MemoryStored "i said  twice"),
     [MemAdd "student_001" "i said  twice" "user_preference"]).
Proof. vm_compute. reflexivity. Qed.

(** C5. On the input [Remember that buy milk] the handler stores the
    whole text, prefix included: the prefix is found in the lower-cased
    text but deleted from the text as typed, where the capital letter
    hides it. The call is made whatever the service answers. *)
Theorem remember_keeps_capitalised_prefix :
  Py.startswith (Py.strip (Py.lower "Remember that buy milk")) "remember that "
  = true
  /\ (forall gw : gateway,
        snd (run (process_user_input gw student "Remember that buy milk"))
        = [MemAdd "student_001" "Remember that buy milk" "user_preference"])
  /\ run (process_user_input (services mem0_up) student "Remember that buy milk")
     = (Ok (MemoryStored "Remember that buy milk"),
        [MemAdd "student_001" "Remember that buy milk" "user_preference"]).
Proof.
  split; [reflexivity | ]. split; [ | vm_compute; reflexivity].
  intros gw. rewrite RouterFacts.process_user_input_dispatch.
  change (classify "Remember that buy milk" (calendar_authenticated student))
    with ToMemoryHandler.
  cbn [dispatch]. unfold run.
  rewrite (remember_branch gw student "Remember that buy milk" "remember that" []
             eq_refl (or_introl eq_refl) eq_refl).
  change (Py.strip (Py.replace_empty "Remember that buy milk" "remember that"))
    with "Remember that buy milk".
  cbn [String.length Nat.ltb Nat.leb].
  destruct (client_add _ _ _ _); reflexivity.
Qed.

(** *** Updating a memory *)

Lemma split_nonempty (sep : ascii) (n : nat) (s : string) :
  Py.split sep n s <> [].
Proof.
  revert n. induction s as [ | c s IH]; intros n; simpl; [discriminate | ].
  destruct (Ascii.eqb c sep).
  - destruct n; discriminate.
  - destruct (Py.split sep n s); discriminate.
Qed.

(** At most [maxsplit] cuts are made. *)
Lemma split_length (sep : ascii) (n : nat) (s : string) :
  (1 <= List.length (Py.split sep n s) <= S n)%nat.
Proof.
  revert n. induction s as [ | c s IH]; intros n; simpl; [lia | ].
  destruct (Ascii.eqb c sep).
  - destruct n as [ | m]; simpl; [lia | ]. specialize (IH m). lia.
  - specialize (IH n). destruct (Py.split sep n s); simpl in *; lia.
Qed.

Lemma concat_cons (sep x : string) (l : list string) :
  l <> [] -> String.concat sep (x :: l) = x ++ sep ++ String.concat sep l.
Proof. destruct l; [contradiction | reflexivity]. Qed.

(** The tokens, joined by the separator, give the text back: the last
    token is the rest of the text as it stands. *)
Lemma split_join (sep : ascii) (n : nat) (s : string) :
  String.concat (String sep EmptyString) (Py.split sep n s) = s.
Proof.
  revert n. induction s as [ | c s IH]; intros n; simpl; [reflexivity | ].
  destruct (Ascii.eqb_spec c sep) as [-> | Hne].
  - destruct n as [ | m]; [reflexivity | ].
    rewrite concat_cons by apply split_nonempty.
    rewrite IH. reflexivity.
  - specialize (IH n). pose proof (split_nonempty sep n s) as Hn.
    destruct (Py.split sep n s) as [ | h r]; [contradiction | ].
    destruct r as [ | h' r]; exact (f_equal (String c) IH).
Qed.

(** What the handler does on [update memory ...]. *)
Lemma update_branch (gw : gateway) (st : session) (t : string)
    (log : list call) :
  let parts := Py.split " " 3 t in
  memory_available st = true ->
  Py.startswith (Py.strip (Py.lower t)) "update memory " = true ->
  process_memory_query gw st t log =
    if (4 <=? List.length parts)%nat then
      match client_update (mem0 gw) (Py.item parts 2) (Py.item parts 3) with
      | Ok _ =>
          (Ok (MemoryUpdated (Py.item parts 2) (Py.item parts 3)),
           (log ++ [MemUpdate (Py.item parts 2) (Py.item parts 3)])%list)
      | Raise e =>
          (Ok (UpdateError (exn_str e)),
           (log ++ [MemUpdate (Py.item parts 2) (Py.item parts 3)])%list)
      end
    else (Ok UpdateUsage, log).
Proof.
  intros parts Hm Hs. unfold process_memory_query.
  rewrite Hm. cbn [negb]. decide_tests Hs. fold parts.
  unfold update_memory. run_monad.
  destruct (4 <=? List.length parts)%nat; [ | reflexivity].
  destruct (client_update _ _ _); reflexivity.
Qed.

(** C6, as stated, fails on the bare input [update memory]: its tokens
    are fewer than four, and the reply is the list of memory commands,
    not the usage message. *)
Lemma update_memory_bare_not_usage :
  (List.length (Py.split " " 3 "update memory") < 4)%nat
  /\ run (process_memory_query (services mem0_up) student "update memory")
     = (Ok UnknownMemoryCommand, [])
  /\ run (process_memory_query (services mem0_up) student "update memory")
     <> (Ok UpdateUsage, []).
Proof.
  split; [vm_compute; lia | ]. split; [vm_compute; reflexivity | ].
  vm_compute. discriminate.
Qed.

(** C6, amended. When the lower-cased trimmed text starts with
    [update memory ] the text as typed is cut at its first three spaces
    into at most four tokens that join back to the text; with fewer
    than four tokens the reply is the usage message and no call is made,
    with four the one call updates the memory named by the third token
    with the fourth token as content. The bare input [update memory] is
    not such a text: it gets the list of memory commands, and no call
    is made either. *)
Theorem update_memory_usage (gw : gateway) (st : session) :
  memory_available st = true ->
  (forall t : string,
      Py.startswith (Py.strip (Py.lower t)) "update memory " = true ->
      let parts := Py.split " " 3 t in
      (List.length parts <= 4)%nat
      /\ String.concat " " parts = t
      /\ ((List.length parts < 4)%nat ->
          run (process_memory_query gw st t) = (Ok UpdateUsage, []))
      /\ (List.length parts = 4%nat ->
          snd (run (process_memory_query gw st t))
          = [MemUpdate (Py.item parts 2) (Py.item parts 3)]))
  /\ run (process_memory_query gw st "update memory")
     = (Ok UnknownMemoryCommand, []).
Proof.
  intros Hm. split.
  - intros t Hs parts.
    split; [apply (split_length " " 3 t) | ].
    split; [apply (split_join " " 3 t) | ].
    unfold run. rewrite (update_branch gw st t [] Hm Hs). fold parts.
    split; intros Hl.
    + destruct (Nat.leb_spec 4 (List.length parts)); [lia | reflexivity].
    + rewrite Hl. cbn [Nat.leb].
      destruct (client_update _ _ _); reflexivity.
  - unfold run, process_memory_query. rewrite Hm. reflexivity.
Qed.

Lemma update_memory_usage_witness :
  run (process_memory_query (services mem0_up) student "Update memory abc")
  = (Ok UpdateUsage, [])
  /\ snd (run (process_memory_query (services mem0_up) student
                 "update memory abc I prefer afternoon workouts"))
     = [MemUpdate "abc" "I prefer afternoon workouts"].
Proof.
  destruct (update_memory_usage (services mem0_up) student eq_refl) as [H _].
  split.
  - apply (H "Update memory abc" eq_refl). vm_compute. lia.
  - apply (H "update memory abc I prefer afternoon workouts" eq_refl).
    reflexivity.
Defined.

(** *** Listing the memories *)

(** [get_memories] never raises; when the client fails it returns an
    empty list, not a dict. *)
Lemma get_memories_returns (cl : memory_client) (user : string) (limit : Z)
    (log : list call) :
  exists v,
    get_memories cl user limit log
    = (Ok v, (log ++ [MemGetAll user limit 0])%list)
    /\ (forall e, client_get_all cl user limit 0 = Raise e -> v = ListValue []).
Proof.
  unfold get_memories. run_monad.
  destruct (client_get_all cl user limit 0) as [v | e].
  - exists v. split; [reflexivity | discriminate].
  - exists (ListValue []). split; reflexivity.
Qed.

(** C10. [get_memories] does not raise, and when the client raises it
    returns the empty list, which is not a dict with [results]. So on
    [my memories] and [what do you remember] a failure of the client ends
    in the Memory System Error reply of the handler, with the TypeError
    of the subscript as its text, and not in the reply that no memories
    are stored. *)
Theorem get_memories_failure_is_system_error
    (gw : gateway) (st : session) (t : string) (e : exn) :
  memory_available st = true ->
  Py.strip (Py.lower t) = "my memories"
  \/ Py.strip (Py.lower t) = "what do you remember" ->
  client_get_all (mem0 gw) (user_id st) 10 0 = Raise e ->
  (forall cl user limit log,
      exists v, get_memories cl user limit log
                = (Ok v, (log ++ [MemGetAll user limit 0])%list))
  /\ run (get_memories (mem0 gw) (user_id st) 10)
     = (Ok (ListValue []), [MemGetAll (user_id st) 10 0])
  /\ run (process_memory_query gw st t)
     = (Ok (MemorySystemError
              "list indices must be integers or slices, not str"),
        [MemGetAll (user_id st) 10 0])
  /\ fst (run (process_memory_query gw st t)) <> Ok NoMemoriesStored.
Proof.
  intros Hm Ht He.
  assert (G : run (get_memories (mem0 gw) (user_id st) 10)
              = (Ok (ListValue []), [MemGetAll (user_id st) 10 0])).
  { unfold run, get_memories. run_monad. rewrite He. reflexivity. }
  assert (P : run (process_memory_query gw st t)
              = (Ok (MemorySystemError
                       "list indices must be integers or slices, not str"),
                 [MemGetAll (user_id st) 10 0])).
  { unfold run, process_memory_query. rewrite Hm. cbn [negb].
    destruct Ht as [-> | ->]; cbn [Py.startswith String.eqb Ascii.eqb
                                     Bool.eqb orb andb];
      unfold get_memories; run_monad; rewrite He; reflexivity. }
  split.
  - intros cl user limit log.
    destruct (get_memories_returns cl user limit log) as (v & Hv & _). eauto.
  - split; [exact G | ]. split; [exact P | ]. rewrite P. discriminate.
Qed.

Lemma get_memories_failure_is_system_error_witness :
  run (process_memory_query (services mem0_down) student " My Memories ")
  = (Ok (MemorySystemError "list indices must be integers or slices, not str"),
     [MemGetAll "student_001" 10 0]).
Proof.
  apply (get_memories_failure_is_system_error (services mem0_down) student
           " My Memories " (Exn OtherError "connection refused"));
    [reflexivity | left; reflexivity | reflexivity].
Defined.

End MemoryFacts.

(** ** The calendar handler *)

Module CalendarHandlerFacts.

Import Gateway Memory App PyFacts.

(** A text that starts with [search ] or [find ] holds a calendar phrase,
    so the router sends it to the calendar handler unless a memory
    phrase claims it first. *)
Lemma search_text_is_calendar_text (l : string) :
  Py.startswith l "search " = true \/ Py.startswith l "find " = true ->
  calendar_match l.
Proof.
  intros [H | H]; apply startswith_spec in H; destruct H as [rest ->].
  - exists "search". split; [simpl; tauto | ].
    exists "", (" " ++ rest). reflexivity.
  - exists "find". split; [simpl; tauto | ].
    exists "", (" " ++ rest). reflexivity.
Qed.

(** C8. A text for the calendar handler with none of the words of the
    three earlier branches, whose lower-cased trimmed form starts with
    [search ] or [find ]: the query is that form with every occurrence of
    [search], then of [find], deleted wherever it stands, and trimmed.
    A query that is not empty is searched for with at most 10 results,
    in one call; an empty one gets the request to specify, and no call. *)
Theorem calendar_search_query (gw : gateway) (t : string) :
  let l := Py.strip (Py.lower t) in
  let query :=
    Py.strip (Py.replace_empty (Py.replace_empty l "search") "find") in
  Py.any (Py.contains l) ["today"; "today's"; "todays"] = false ->
  Py.any (Py.contains l) ["week"; "weekly"; "this week"] = false ->
  Py.any (Py.contains l) ["upcoming"; "next events"; "future events"] = false ->
  Py.startswith l "search " = true \/ Py.startswith l "find " = true ->
  (query <> EmptyString ->
   run (process_calendar_query gw t)
   = (Ok (SearchResults query
            (get_or (formatted_output (search_events gw query 10))
                    ("No events found for " ++ dquote ++ query ++ dquote))),
      [CalSearchEvents query 10]))
  /\ (query = EmptyString ->
      run (process_calendar_query gw t) = (Ok SpecifyCalendarSearch, [])).
Proof.
  intros l query H1 H2 H3 Hs.
  assert (Hor : Py.startswith l "search " || Py.startswith l "find " = true).
  { apply orb_true_iff. exact Hs. }
  unfold run, process_calendar_query. fold l.
  rewrite H1, H2, H3, Hor. fold query.
  split; intros Hq.
  - destruct query as [ | c q] eqn:E; [contradiction | ].
    cbn [nonempty]. reflexivity.
  - rewrite Hq. reflexivity.
Qed.

Lemma calendar_search_query_witness :
  run (process_calendar_query (services mem0_up) "Find the search party")
  = (Ok (SearchResults "the  party" "No events found."),
     [CalSearchEvents "the  party" 10])
  /\ run (process_calendar_query (services mem0_up) "search find")
     = (Ok SpecifyCalendarSearch, []).
Proof.
  split.
  - apply (calendar_search_query (services mem0_up) "Find the search party");
      try reflexivity; [right; reflexivity | discriminate].
  - apply (calendar_search_query (services mem0_up) "search find");
      try reflexivity. left; reflexivity.
Defined.

End CalendarHandlerFacts.

(** ** More on the slot search *)

Module CalendarExtras.

Import DateTime DateTimeFacts Calendar CalendarFacts CalendarSamples.
Open Scope Z_scope.
Open Scope result_scope.

(** X1. Before 23:30 the rounding succeeds, and its result is the first
    full or half hour strictly after [now]: at most 30 minutes later,
    with second and microsecond zero. *)
Theorem round_up_is_next_boundary (now : datetime) :
  valid_time now ->
  hour now < 23 \/ minute now < 30 ->
  exists b : datetime,
    round_up now = Ok b
    /\ to_us now < to_us b <= to_us now + 30 * US_PER_MINUTE
    /\ (minute b = 0 \/ minute b = 30)
    /\ second b = 0 /\ microsecond b = 0.
Proof.
  intros V B. destruct (round_up_ok now V B) as (b & R & _).
  exists b. split; [exact R | ].
  destruct (round_up_next now b V R) as (H1 & H2 & H3 & H4 & _). auto.
Qed.

Lemma round_up_is_next_boundary_witness :
  exists b : datetime,
    round_up mid_morning = Ok b
    /\ to_us mid_morning < to_us b <= to_us mid_morning + 30 * US_PER_MINUTE
    /\ (minute b = 0 \/ minute b = 30)
    /\ second b = 0 /\ microsecond b = 0.
Proof.
  apply round_up_is_next_boundary.
  - unfold valid_time; simpl; lia.
  - left; simpl; lia.
Defined.

Lemma get_next_free_slot_found_witness :
  exists (b : datetime) (k : nat),
    round_up mid_morning = Ok b
    /\ mkDatetime 739926 0 30 0 0 = candidate b k
    /\ to_us (mkDatetime 739926 0 30 0 0) < to_us mid_morning + timedelta_days 7
    /\ judged busy_two_days 60 (mkDatetime 739926 0 30 0 0) = Ok true
    /\ (forall j : nat, (j < k)%nat ->
        judged busy_two_days 60 (candidate b j) = Ok false)
    /\ (minute (mkDatetime 739926 0 30 0 0) = 0
        \/ minute (mkDatetime 739926 0 30 0 0) = 30)
    /\ second (mkDatetime 739926 0 30 0 0) = 0
    /\ microsecond (mkDatetime 739926 0 30 0 0) = 0.
Proof.
  apply (get_next_free_slot_found busy_two_days mid_morning
           (mkDatetime 739926 0 30 0 0) 60).
  - unfold valid_time; simpl; lia.
  - vm_compute. reflexivity.
Defined.

Lemma get_next_free_slot_none_witness :
  exists b : datetime,
    round_up mid_morning = Ok b
    /\ forall k : nat,
         to_us (candidate b k) < to_us mid_morning + timedelta_days 7 ->
         judged always_busy 60 (candidate b k) = Ok false.
Proof.
  apply (get_next_free_slot_none always_busy mid_morning 60).
  - unfold valid_time; simpl; lia.
  - vm_compute. reflexivity.
Defined.

(** X5. A returned slot lies strictly after [now] and strictly before
    [now + 7 days], and it is one of the first 168 candidates. *)
Theorem returned_slot_within_week (c : client) (now r : datetime) (d : Z) :
  valid_time now ->
  get_next_free_slot c now d = Ok (Some r) ->
  to_us now < to_us r < to_us now + timedelta_days 7
  /\ exists (b : datetime) (k : nat),
       round_up now = Ok b /\ r = candidate b k /\ (k < 168)%nat.
Proof.
  intros V. unfold get_next_free_slot.
  destruct (add now (timedelta_days 7)) as [check_end | e] eqn:A;
    cbn [rbind]; [ | discriminate].
  apply add_ok in A. destruct A as [-> _].
  destruct (round_up now) as [b | e] eqn:R; cbn [rbind]; [ | discriminate].
  destruct (round_up_next now b V R) as (Hb & _ & _ & _ & Vb).
  unfold search. intros H.
  destruct (slot_loop_some _ _ _ _ _ _ Vb H) as (k & Hr & Hl & _ & _).
  rewrite ltb_to_us in Hl
    by (subst r; auto using valid_time_candidate, valid_time_shift).
  apply Z.ltb_lt in Hl. rewrite to_us_shift in Hl.
  pose proof (to_us_candidate b k) as Hc. rewrite <- Hr in Hc.
  unfold timedelta_days, US_PER_DAY, US_PER_HOUR, US_PER_MINUTE in *.
  split; [lia | ]. exists b, k. repeat split; [exact Hr | lia].
Qed.

Lemma returned_slot_within_week_witness :
  to_us mid_morning < to_us (mkDatetime 739926 0 30 0 0)
                    < to_us mid_morning + timedelta_days 7
  /\ exists (b : datetime) (k : nat),
       round_up mid_morning = Ok b
       /\ mkDatetime 739926 0 30 0 0 = candidate b k /\ (k < 168)%nat.
Proof.
  apply (returned_slot_within_week busy_two_days mid_morning
           (mkDatetime 739926 0 30 0 0) 60).
  - unfold valid_time; simpl; lia.
  - vm_compute. reflexivity.
Defined.

(** X6. [is_available] fails open. It answers [True] when the client is
    not signed in and cannot sign in, when the provider's query raises
    [HttpError], and when the answer has no [calendars] key or no entry
    for the primary calendar; an exception of another class, raised by
    the query of a signed-in client, is passed on. *)
Theorem is_available_fails_open (c : client) (s e : datetime) :
  (authenticated c = false -> authenticate c = false ->
   is_available c s e = Ok true)
  /\ (forall x, freebusy_query c s e ["primary"] = Raise x ->
                is_http_error x = true -> is_available c s e = Ok true)
  /\ (forall fb, freebusy_query c s e ["primary"] = Ok fb ->
                 calendars fb = None -> is_available c s e = Ok true)
  /\ (forall fb cals, freebusy_query c s e ["primary"] = Ok fb ->
                      calendars fb = Some cals ->
                      (forall k v, In (k, v) cals -> k <> "primary") ->
                      is_available c s e = Ok true)
  /\ (forall x, authenticated c = true \/ authenticate c = true ->
                freebusy_query c s e ["primary"] = Raise x ->
                is_http_error x = false -> is_available c s e = Raise x).
Proof.
  unfold is_available, get_free_busy_info. repeat split.
  - intros -> ->. reflexivity.
  - intros x Q Hx. rewrite Q, Hx.
    destruct (negb (authenticated c) && negb (authenticate c)); reflexivity.
  - intros fb Q Hc. rewrite Q.
    destruct (negb (authenticated c) && negb (authenticate c)); cbn [rbind];
      [reflexivity | rewrite Hc; reflexivity].
  - intros fb cals Q Hc Hk. rewrite Q.
    destruct (negb (authenticated c) && negb (authenticate c)); cbn [rbind];
      [reflexivity | ].
    rewrite Hc.
    assert (G : dict_get cals "primary" {| busy := None |} = {| busy := None |}).
    { clear Hc. induction cals as [ | [k v] cals IH]; [reflexivity | ].
      cbn [dict_get]. destruct (String.eqb_spec k "primary") as [-> | _].
      - exfalso. apply (Hk "primary" v); [left; reflexivity | reflexivity].
      - apply IH. intros k' v' Hin. apply (Hk k' v'). right. exact Hin. }
    rewrite G. reflexivity.
  - intros x A Q Hx. rewrite Q, Hx.
    destruct A as [-> | ->]; destruct (authenticated c); reflexivity.
Qed.

Lemma is_available_fails_open_witness :
  is_available signed_out mid_morning (shift mid_morning (timedelta_hours 2))
  = Ok true
  /\ is_available provider_down mid_morning (shift mid_morning (timedelta_hours 2))
     = Ok true
  /\ is_available bare_answer mid_morning (shift mid_morning (timedelta_hours 2))
     = Ok true
  /\ is_available network_down mid_morning (shift mid_morning (timedelta_hours 2))
     = Raise (Exn OtherError "timed out").
Proof.
  split; [ | split; [ | split]].
  - apply (is_available_fails_open signed_out); reflexivity.
  - apply (is_available_fails_open provider_down) with
      (x := Exn HttpError "503"); reflexivity.
  - apply (is_available_fails_open bare_answer) with (fb := empty_dict);
      reflexivity.
  - apply (is_available_fails_open network_down);
      [left; reflexivity | reflexivity | reflexivity].
Defined.

End CalendarExtras.

(** ** More on the memory manager and the memory handler *)

Module MemoryExtras.

Import Gateway Memory App PyFacts MemoryFacts.

(** X7. No method of the memory manager raises, and each makes exactly
    one request to the mem0 client, whatever the client answers. The
    four writing methods report success exactly when the client did not
    raise, with [str(e)] as the error otherwise. *)
Theorem memory_manager_returns (cl : memory_client) (log : list call) :
  (forall user text type,
      add_memory cl user text type log
      = (Ok (match client_add cl user text type with
             | Ok _ => Success | Raise e => Failure (exn_str e) end),
         (log ++ [MemAdd user text type])%list))
  /\ (forall id text,
      update_memory cl id text log
      = (Ok (match client_update cl id text with
             | Ok _ => Success | Raise e => Failure (exn_str e) end),
         (log ++ [MemUpdate id text])%list))
  /\ (forall id,
      delete_memory cl id log
      = (Ok (match client_delete cl id with
             | Ok _ => Success | Raise e => Failure (exn_str e) end),
         (log ++ [MemDelete id])%list))
  /\ (forall user,
      clear_user_memories cl user log
      = (Ok (match client_delete_all cl user with
             | Ok _ => Success | Raise e => Failure (exn_str e) end),
         (log ++ [MemDeleteAll user])%list))
  /\ (forall user limit,
      exists v, get_memories cl user limit log
                = (Ok v, (log ++ [MemGetAll user limit 0])%list))
  /\ (forall user query limit th,
      exists found, search_memories cl user query limit th log
                    = (Ok found, (log ++ [MemSearch query user limit])%list)).
Proof.
  repeat split; intros.
  - unfold add_memory. run_monad. destruct (client_add _ _ _ _); reflexivity.
  - unfold update_memory. run_monad. destruct (client_update _ _ _); reflexivity.
  - unfold delete_memory. run_monad. destruct (client_delete _ _); reflexivity.
  - unfold clear_user_memories. run_monad.
    destruct (client_delete_all _ _); reflexivity.
  - destruct (get_memories_returns cl user limit log) as (v & Hv & _). eauto.
  - apply search_memories_returns.
Qed.

(** X8. A text whose lower-cased trimmed form starts with [i prefer ],
    [i like ] or [set preference ] is stored whole, as typed and without
    trimming, under the category [preference], in one call. *)
Theorem preference_stored_whole (gw : gateway) (st : session) (t p : string) :
  memory_available st = true ->
  In p ["i prefer "; "i like "; "set preference "] ->
  Py.startswith (Py.strip (Py.lower t)) p = true ->
  run (process_memory_query gw st t)
  = (Ok (match client_add (mem0 gw) (user_id st) t "preference" with
         | Ok _ => PreferenceStored t
         | Raise e => MemoryError (exn_str e)
         end),
     [MemAdd (user_id st) t "preference"]).
Proof.
  intros Hm Hp Hs. unfold run, process_memory_query. rewrite Hm. cbn [negb].
  destruct Hp as [<- | [<- | [<- | []]]]; decide_tests Hs;
    unfold add_memory; run_monad;
    destruct (client_add _ _ _ _); reflexivity.
Qed.

Lemma preference_stored_whole_witness :
  run (process_memory_query (services mem0_up) student "  I like Tea ")
  = (Ok (PreferenceStored "  I like Tea "),
     [MemAdd "student_001" "  I like Tea " "preference"]).
Proof.
  apply (preference_stored_whole (services mem0_up) student "  I like Tea "
           "i like "); [reflexivity | right; left; reflexivity | reflexivity].
Defined.

Lemma short_query (q : string) :
  (String.length q <= 1)%nat ->
  nonempty q && (1 <? String.length q)%nat = false.
Proof.
  intros H. destruct (Nat.ltb_spec 1 (String.length q)); [lia | ].
  apply andb_false_r.
Qed.

(** X9. A memory search whose extracted query has at most one character
    is answered with the request to specify, and the service is not
    called. *)
Theorem short_memory_search_not_sent (gw : gateway) (st : session) (t : string) :
  let l := Py.strip (Py.lower t) in
  memory_available st = true ->
  is_search SearchMemory l = true ->
  (String.length (search_query SearchMemory l) <= 1)%nat ->
  run (process_memory_query gw st t) = (Ok SpecifyMemorySearch, []).
Proof.
  intros l Hm Hk Hq. unfold run, process_memory_query. fold l.
  rewrite Hm. cbn [negb].
  pose proof (short_query _ Hq) as Hshort.
  cbn [is_search] in Hk. apply orb_true_iff in Hk.
  destruct Hk as [Hk | Hk]; decide_tests Hk;
    unfold search_query in Hshort; fold l in Hshort |- *;
    rewrite Hshort; reflexivity.
Qed.

Lemma short_memory_search_not_sent_witness :
  run (process_memory_query (services mem0_up) student "Search memory x")
  = (Ok SpecifyMemorySearch, []).
Proof.
  apply (short_memory_search_not_sent (services mem0_up) student
           "Search memory x"); [reflexivity | reflexivity | vm_compute; lia].
Defined.

(** X10. The listing of all memories: on [my memories], on
    [what do you remember], and on a recall whose query has at most one
    character, the handler asks for the first 10 memories of the user
    and shows the [results] it gets as they are, with no cut by score;
    an answer without [results] ends in the Memory System Error reply. *)
Theorem list_all_unfiltered (gw : gateway) (st : session) (t : string)
    (v : memories_value) :
  let l := Py.strip (Py.lower t) in
  memory_available st = true ->
  l = "my memories" \/ l = "what do you remember"
  \/ (is_search RecallQuery l = true
      /\ (String.length (search_query RecallQuery l) <= 1)%nat) ->
  client_get_all (mem0 gw) (user_id st) 10 0 = Ok v ->
  run (process_memory_query gw st t)
  = (Ok (match subscript_results v with
         | Ok [] => NoMemoriesStored
         | Ok (m :: ms) => YourMemories (m :: ms)
         | Raise e => MemorySystemError (exn_str e)
         end),
     [MemGetAll (user_id st) 10 0]).
Proof.
  intros l Hm Ht Hv. unfold run, process_memory_query. fold l.
  rewrite Hm. cbn [negb].
  destruct Ht as [Ht | [Ht | [Hk Hq]]].
  - rewrite Ht.
    cbn [Py.startswith String.eqb Ascii.eqb Bool.eqb orb andb].
    unfold get_memories; run_monad; rewrite Hv.
    destruct v as [[[ | m ms] | ] | items]; reflexivity.
  - rewrite Ht.
    cbn [Py.startswith String.eqb Ascii.eqb Bool.eqb orb andb].
    unfold get_memories; run_monad; rewrite Hv.
    destruct v as [[[ | m ms] | ] | items]; reflexivity.
  - pose proof (short_query _ Hq) as Hshort.
    cbn [is_search] in Hk. apply orb_true_iff in Hk.
    destruct Hk as [Hk | Hk]; decide_tests Hk;
      unfold search_query in Hshort; fold l in Hshort |- *;
      rewrite Hshort;
      unfold get_memories; run_monad; rewrite Hv;
      destruct v as [[[ | m ms] | ] | items]; reflexivity.
Qed.

Lemma list_all_unfiltered_witness :
  run (process_memory_query (services mem0_up) student "recall x")
  = (Ok (YourMemories raw_hits), [MemGetAll "student_001" 10 0]).
Proof.
  apply (list_all_unfiltered (services mem0_up) student "recall x"
           (DictValue (Some raw_hits))); [reflexivity | | reflexivity].
  right; right. split; [reflexivity | vm_compute; lia].
Defined.

End MemoryExtras.

(** ** Spaces and tokens *)

Module TokenFacts.

Import PyCount PyFacts.

Lemma lower_char_space (c : ascii) :
  Ascii.eqb (Py.lower_char c) " " = Ascii.eqb c " ".
Proof. destruct c as [[] [] [] [] [] [] [] []]; reflexivity. Qed.

Lemma count_lower (s : string) : count " " (Py.lower s) = count " " s.
Proof.
  induction s as [ | c s IH]; [reflexivity | ].
  cbn [Py.lower count]. rewrite lower_char_space, IH. reflexivity.
Qed.

Lemma count_lstrip (c : ascii) (s : string) :
  (count c (Py.lstrip s) <= count c s)%nat.
Proof.
  induction s as [ | a s IH]; [apply le_n | ].
  cbn [Py.lstrip]. destruct (Py.isspace a); [ | apply le_n].
  cbn [count]. lia.
Qed.

Lemma count_rstrip (c : ascii) (s : string) :
  (count c (Py.rstrip s) <= count c s)%nat.
Proof.
  induction s as [ | a s IH]; [apply le_n | ].
  cbn [Py.rstrip]. destruct (Py.rstrip s) as [ | b r] eqn:E.
  - destruct (Py.isspace a); cbn [count] in *; lia.
  - cbn [count] in *. lia.
Qed.

Lemma count_strip (c : ascii) (s : string) :
  (count c (Py.strip s) <= count c s)%nat.
Proof.
  unfold Py.strip. pose proof (count_rstrip c (Py.lstrip s)).
  pose proof (count_lstrip c s). lia.
Qed.

Lemma count_prefix (c : ascii) (s p : string) :
  Py.startswith s p = true -> (count c p <= count c s)%nat.
Proof.
  revert s. induction p as [ | a p IH]; intros [ | b s]; cbn [Py.startswith count];
    try discriminate; try lia.
  rewrite andb_true_iff, Ascii.eqb_eq. intros [-> H].
  specialize (IH s H). lia.
Qed.

(** The number of tokens: one more than the separators found, up to the
    limit on the cuts. *)
Lemma split_length_count (sep : ascii) (n : nat) (s : string) :
  List.length (Py.split sep n s) = S (Nat.min n (count sep s)).
Proof.
  revert n. induction s as [ | c s IH]; intros n; cbn [Py.split count].
  - rewrite Nat.min_0_r. reflexivity.
  - destruct (Ascii.eqb c sep).
    + destruct n as [ | m]; [reflexivity | ].
      cbn [List.length]. rewrite IH. reflexivity.
    + specialize (IH n).
      destruct (Py.split sep n s) as [ | h r]; [discriminate | ].
      cbn [List.length] in *. rewrite IH. reflexivity.
Qed.

(** The spaces of a phrase at the start of the lower-cased trimmed text
    are spaces of the text as typed. *)
Lemma spaces_of_prefix (t p : string) :
  Py.startswith (Py.strip (Py.lower t)) p = true ->
  (count " " p <= count " " t)%nat.
Proof.
  intros H. apply (count_prefix " ") in H.
  pose proof (count_strip " " (Py.lower t)). rewrite count_lower in *. lia.
Qed.

End TokenFacts.

Module DeleteExtras.

Import Gateway Memory App PyFacts MemoryFacts TokenFacts.

(** X11. On a text whose lower-cased trimmed form starts with
    [delete memory ] the cut at the first two spaces always gives three
    tokens, which join back to the text; so the handler always makes the
    one call that deletes the memory named by the third token, which is
    all the rest of the text, and the usage message for [delete memory]
    is never given. *)
Theorem delete_memory_always_calls (gw : gateway) (st : session) (t : string) :
  let parts := Py.split " " 2 t in
  memory_available st = true ->
  Py.startswith (Py.strip (Py.lower t)) "delete memory " = true ->
  List.length parts = 3%nat
  /\ String.concat " " parts = t
  /\ run (process_memory_query gw st t)
     = (Ok (match client_delete (mem0 gw) (Py.item parts 2) with
            | Ok _ => MemoryDeleted (Py.item parts 2)
            | Raise e => DeleteError (exn_str e)
            end),
        [MemDelete (Py.item parts 2)])
  /\ fst (run (process_memory_query gw st t)) <> Ok DeleteUsage.
Proof.
  intros parts Hm Hs.
  assert (L : List.length parts = 3%nat).
  { unfold parts. rewrite split_length_count.
    pose proof (spaces_of_prefix t "delete memory " Hs) as Hc.
    change (PyCount.count " " "delete memory ") with 2%nat in Hc.
    rewrite Nat.min_l by exact Hc. reflexivity. }
  assert (R : run (process_memory_query gw st t)
              = (Ok (match client_delete (mem0 gw) (Py.item parts 2) with
                     | Ok _ => MemoryDeleted (Py.item parts 2)
                     | Raise e => DeleteError (exn_str e)
                     end),
                 [MemDelete (Py.item parts 2)])).
  { unfold run, process_memory_query. rewrite Hm. cbn [negb].
    decide_tests Hs. fold parts. rewrite L. cbn [Nat.leb].
    unfold delete_memory. run_monad.
    destruct (client_delete _ _); reflexivity. }
  split; [exact L | ]. split; [apply (split_join " " 2 t) | ].
  split; [exact R | ]. rewrite R. cbn [fst].
  destruct (client_delete _ _); discriminate.
Qed.

Lemma delete_memory_always_calls_witness :
  run (process_memory_query (services mem0_up) student "Delete memory def456 now")
  = (Ok (MemoryDeleted "def456 now"), [MemDelete "def456 now"]).
Proof.
  apply (delete_memory_always_calls (services mem0_up) student
           "Delete memory def456 now"); reflexivity.
Defined.

End DeleteExtras.

(** ** What the handlers call *)

Module CallFacts.

Import Gateway Memory App Calls PyFacts MemoryFacts RouterFacts.

Ltac split_handler :=
  repeat match goal with
         | |- context [if ?b then _ else _] => destruct b eqn:?
         | |- context [match ?x with Ok _ => _ | Raise _ => _ end] =>
             destruct x eqn:?
         | |- context [match ?x with Success => _ | Failure _ => _ end] =>
             destruct x eqn:?
         | |- context [match ?x with DictValue _ => _ | ListValue _ => _ end] =>
             destruct x eqn:?
         | |- context [match ?x with Some _ => _ | None => _ end] =>
             destruct x eqn:?
         | |- context [match ?x with [] => _ | _ :: _ => _ end] =>
             destruct x eqn:?
         end.

Ltac close_leaf :=
  first
    [ eexists; exists []; rewrite app_nil_r;
      split; [reflexivity | ];
      split; [cbn [List.length]; lia | ];
      split; [constructor | intros; reflexivity]
    | eexists; eexists [_];
      split; [reflexivity | ];
      split; [cbn [List.length]; lia | ];
      split; [ constructor; [ | constructor];
               split; [reflexivity | cbn [command_allows]; try reflexivity;
                                      try assumption]
             | intros; discriminate ] ].

(** The memory handler returns a reply, adds at most one call to the
    log, only calls the memory service, only makes a changing call on
    its command, and calls nothing when the memory is not available. *)
Lemma memory_handler_calls (gw : gateway) (st : session) (t : string)
    (log : list call) :
  exists (r : reply) (calls : list call),
    process_memory_query gw st t log = (Ok r, (log ++ calls)%list)
    /\ (List.length calls <= 1)%nat
    /\ Forall (fun c => is_memory_call c = true
                        /\ command_allows (Py.strip (Py.lower t)) c = true)
              calls
    /\ (memory_available st = false -> calls = []).
Proof.
  unfold process_memory_query.
  set (l := Py.strip (Py.lower t)).
  destruct (memory_available st) eqn:Hm; cbn [negb].
  2:{ exists MemoryNotAvailable, []. unfold ret. rewrite app_nil_r.
      repeat split; [cbn; lia | constructor]. }
  unfold add_memory, update_memory, delete_memory, clear_user_memories,
    get_memories, search_memories, subscript_results.
  run_monad.
  split_handler; close_leaf.
Qed.

(** The calendar handler returns a reply, adds at most one call to the
    log, and only calls calendar tools. *)
Lemma calendar_handler_calls (gw : gateway) (t : string) (log : list call) :
  exists (r : reply) (calls : list call),
    process_calendar_query gw t log = (Ok r, (log ++ calls)%list)
    /\ (List.length calls <= 1)%nat
    /\ Forall (fun c => is_memory_call c = false) calls.
Proof.
  unfold process_calendar_query.
  set (l := Py.strip (Py.lower t)).
  run_monad.
  split_handler;
    first
      [ eexists; exists []; rewrite app_nil_r;
        split; [reflexivity | ]; split; [cbn [List.length]; lia | constructor]
      | eexists; eexists [_];
        split; [reflexivity | ]; split; [cbn [List.length]; lia | ];
        constructor; [reflexivity | constructor] ].
Qed.

End CallFacts.

(** ** The router and the two services *)

Module RouterExtras.

Import Gateway Memory App Calls PyFacts RouterFacts CallFacts.

Lemma calendar_route_authenticated (t : string) (auth : bool) :
  classify t auth = ToCalendarHandler -> auth = true.
Proof.
  unfold classify.
  destruct (Py.any _ memory_patterns); [discriminate | ].
  destruct (Py.any _ calendar_patterns).
  - destruct auth; [reflexivity | discriminate].
  - destruct (Py.in_list _ ["help"; "commands"; "what can you do"]);
      [discriminate | ].
    destruct (Py.in_list _ ["hello"; "hi"; "hey"; "greetings"]); discriminate.
Qed.

Lemma calendar_call_allowed (l : string) (c : call) :
  is_memory_call c = false -> command_allows l c = true.
Proof. destruct c; cbn; congruence. Qed.

Lemma router_calls (gw : gateway) (st : session) (t : string) (log : list call) :
  exists (r : reply) (calls : list call),
    process_user_input gw st t log = (Ok r, (log ++ calls)%list)
    /\ (List.length calls <= 1)%nat
    /\ Forall (fun c => command_allows (Py.strip (Py.lower t)) c = true) calls
    /\ (calendar_authenticated st = false ->
        Forall (fun c => is_memory_call c = true) calls)
    /\ (memory_available st = false ->
        Forall (fun c => is_memory_call c = false) calls).
Proof.
  rewrite process_user_input_dispatch.
  destruct (classify t (calendar_authenticated st)) eqn:C; cbn [dispatch].
  - destruct (memory_handler_calls gw st t log) as (r & calls & E & L & F & N).
    exists r, calls. split; [exact E | ]. split; [exact L | ].
    split; [ | split].
    + eapply Forall_impl; [ | exact F]. cbn. tauto.
    + intros _. eapply Forall_impl; [ | exact F]. cbn. tauto.
    + intros Hm. rewrite (N Hm). constructor.
  - destruct (calendar_handler_calls gw t log) as (r & calls & E & L & F).
    exists r, calls. split; [exact E | ]. split; [exact L | ].
    split; [ | split].
    + eapply Forall_impl; [ | exact F]. apply calendar_call_allowed.
    + intros Ha. apply calendar_route_authenticated in C. congruence.
    + intros _. exact F.
  - exists CalendarNotAuthenticated, []. unfold ret. rewrite app_nil_r.
    repeat split; [cbn; lia | constructor | constructor | constructor].
  - exists HelpText, []. unfold ret. rewrite app_nil_r.
    repeat split; [cbn; lia | constructor | constructor | constructor].
  - exists Greeting, []. unfold ret. rewrite app_nil_r.
    repeat split; [cbn; lia | constructor | constructor | constructor].
  - exists CommandNotRecognized, []. unfold ret. rewrite app_nil_r.
    repeat split; [cbn; lia | constructor | constructor | constructor].
Qed.

(** X12. [process_user_input] never raises: whatever the services
    answer, and whatever they raise, it returns a reply. It keeps the
    calls made before and adds at most one. *)
Theorem router_returns_one_call (gw : gateway) (st : session) (t : string)
    (log : list call) :
  exists (r : reply) (calls : list call),
    process_user_input gw st t log = (Ok r, (log ++ calls)%list)
    /\ (List.length calls <= 1)%nat.
Proof.
  destruct (router_calls gw st t log) as (r & calls & E & L & _).
  exists r, calls. auto.
Qed.

(** X13. The two gates of the router: while the calendar is not
    authenticated no calendar tool is called, and while the memory
    system is not available the mem0 client is not called, whatever the
    text. *)
Theorem router_gates (gw : gateway) (st : session) (t : string)
    (log : list call) :
  exists (r : reply) (calls : list call),
    process_user_input gw st t log = (Ok r, (log ++ calls)%list)
    /\ (calendar_authenticated st = false ->
        forall c, In c calls -> is_memory_call c = true)
    /\ (memory_available st = false ->
        forall c, In c calls -> is_memory_call c = false).
Proof.
  destruct (router_calls gw st t log) as (r & calls & E & _ & _ & A & M).
  exists r, calls. split; [exact E | ].
  split; intros H; [apply Forall_forall, A | apply Forall_forall, M]; exact H.
Qed.

(** X14. Stored memories are changed only on command: all memories of
    the user are deleted only when the lower-cased trimmed text is
    [clear memories], [delete memories] or [reset memories]; one memory
    is deleted only when that text starts with [delete memory ], and
    updated only when it starts with [update memory ]. *)
Theorem changes_only_on_command (gw : gateway) (st : session) (t : string)
    (log : list call) :
  let l := Py.strip (Py.lower t) in
  exists (r : reply) (calls : list call),
    process_user_input gw st t log = (Ok r, (log ++ calls)%list)
    /\ (forall user, In (MemDeleteAll user) calls ->
        In l ["clear memories"; "delete memories"; "reset memories"])
    /\ (forall id, In (MemDelete id) calls ->
        Py.startswith l "delete memory " = true)
    /\ (forall id text, In (MemUpdate id text) calls ->
        Py.startswith l "update memory " = true).
Proof.
  intros l.
  destruct (router_calls gw st t log) as (r & calls & E & _ & F & _).
  exists r, calls. split; [exact E | ].
  rewrite Forall_forall in F. fold l in F.
  split; [ | split].
  - intros user Hin. specialize (F _ Hin). cbn [command_allows] in F.
    apply orb_true_iff in F. destruct F as [F | F];
      [apply orb_true_iff in F; destruct F as [F | F] | ];
      apply String.eqb_eq in F; rewrite F; cbn; tauto.
  - intros id Hin. exact (F _ Hin).
  - intros id text Hin. exact (F _ Hin).
Qed.

End RouterExtras.

(** ** More on the calendar handler *)

Module CalendarHandlerExtras.

Import DateTime DateTimeFacts Gateway Memory App ServiceSamples.

(** X15. Today's schedule is the first and the last branch of the
    calendar handler: a text that holds [today] gets it whatever else it
    holds, a search prefix included, and so does a text that none of the
    branches claims. It is fetched in one call; when the tool's dict has
    no [formatted_output] the reply carries the fixed text instead. *)
Theorem todays_schedule_first_and_last (gw : gateway) (t : string) :
  let l := Py.strip (Py.lower t) in
  Py.any (Py.contains l) ["today"; "today's"; "todays"] = true
  \/ (Py.any (Py.contains l) ["week"; "weekly"; "this week"] = false
      /\ Py.any (Py.contains l) ["upcoming"; "next events"; "future events"]
         = false
      /\ Py.startswith l "search " || Py.startswith l "find " = false
      /\ Py.any (Py.contains l) ["available"; "free"; "busy"] = false) ->
  run (process_calendar_query gw t)
  = (Ok (TodaysSchedule
           (get_or (formatted_output (get_todays_events gw))
                   "No events found for today")),
     [CalTodaysEvents]).
Proof.
  intros l H. unfold run, process_calendar_query. fold l.
  destruct H as [H | (H2 & H3 & H4 & H5)].
  - rewrite H. reflexivity.
  - destruct (Py.any (Py.contains l) ["today"; "today's"; "todays"]);
      [reflexivity | ].
    rewrite H2, H3, H4, H5. reflexivity.
Qed.

Lemma todays_schedule_first_and_last_witness :
  run (process_calendar_query (services mem0_up) "Search today's meetings")
  = (Ok (TodaysSchedule "No events found."), [CalTodaysEvents])
  /\ run (process_calendar_query services_calendar_failing "my schedule")
     = (Ok (TodaysSchedule "No events found for today"), [CalTodaysEvents]).
Proof.
  split.
  - apply (todays_schedule_first_and_last (services mem0_up)
             "Search today's meetings"). left. reflexivity.
  - apply (todays_schedule_first_and_last services_calendar_failing
             "my schedule"). right. repeat split; reflexivity.
Defined.

(** X16. The availability branch. A text with [available], [free] or
    [busy] that no earlier branch claims asks for the next free slot of
    60 minutes when it holds both [next] and [free]; otherwise it asks
    whether the two hours from now are free, and answers that the user is
    available only when the tool's dict says [available: True]: a dict
    without that key, as the tool returns on failure, gives the answer
    that the user is busy. *)
Theorem availability_branch (gw : gateway) (t : string) :
  let l := Py.strip (Py.lower t) in
  Py.any (Py.contains l) ["today"; "today's"; "todays"] = false ->
  Py.any (Py.contains l) ["week"; "weekly"; "this week"] = false ->
  Py.any (Py.contains l) ["upcoming"; "next events"; "future events"] = false ->
  Py.startswith l "search " || Py.startswith l "find " = false ->
  Py.any (Py.contains l) ["available"; "free"; "busy"] = true ->
  (Py.contains l "next" && Py.contains l "free" = true ->
   run (process_calendar_query gw t)
   = (Ok (Availability (get_or (message (get_next_free_slot gw 60))
                               "Unable to find free slot")),
      [CalNextFreeSlot 60]))
  /\ (Py.contains l "next" && Py.contains l "free" = false ->
      forall end_time,
        add (now gw) (timedelta_hours 2) = Ok end_time ->
        to_us end_time = (to_us (now gw) + 2 * US_PER_HOUR)%Z
        /\ run (process_calendar_query gw t)
           = (Ok (match available (check_availability gw (now gw) end_time)
                  with
                  | Some true => AvailableNextTwoHours
                  | _ => BusyNextTwoHours
                  end),
              [CalCheckAvailability (now gw) end_time])).
Proof.
  intros l H1 H2 H3 H4 H5. split.
  - intros Hn. unfold run, process_calendar_query. fold l.
    rewrite H1, H2, H3, H4, H5, Hn. reflexivity.
  - intros Hn end_time Ha. split.
    + apply add_ok in Ha. destruct Ha as [-> _]. apply to_us_shift.
    + unfold run, process_calendar_query. fold l.
      rewrite H1, H2, H3, H4, H5, Hn.
      cbv beta iota delta [run bind ret try_except invoke lift raise].
      rewrite Ha.
      destruct (available (check_availability gw (now gw) end_time))
        as [[ | ] | ]; reflexivity.
Qed.

Lemma availability_branch_witness :
  run (process_calendar_query (services mem0_up) "When is my next FREE slot?")
  = (Ok (Availability "Next available 60-minute slot: 2026-11-04 10:30"),
     [CalNextFreeSlot 60])
  /\ run (process_calendar_query services_calendar_failing "Am I free?")
     = (Ok BusyNextTwoHours,
        [CalCheckAvailability Calendar.mid_morning
           (mkDatetime 739924 12 12 40 0)]).
Proof.
  split.
  - apply (availability_branch (services mem0_up) "When is my next FREE slot?");
      reflexivity.
  - apply (availability_branch services_calendar_failing "Am I free?");
      reflexivity.
Defined.

End CalendarHandlerExtras.

(** ** Parsing and formatting events *)

Module EventsFacts.

Import DateTime Calendar Events EventQueries.

Section Parsing.

Variable fromisoformat : string -> result datetime.
Variable location_marker : string.

Lemma parse_loop (events : list raw_event) (acc : list parsed_event) :
  fold_left
    (fun parsed_events event =>
       match _parse_single_event fromisoformat event with
       | Some parsed_event => (parsed_events ++ [parsed_event])%list
       | None => parsed_events
       end)
    events acc
  = (acc ++ flat_map (kept fromisoformat) events)%list.
Proof.
  revert acc.
  induction events as [ | e events IH]; intros acc; cbn [fold_left flat_map].
  - rewrite app_nil_r. reflexivity.
  - rewrite IH. unfold kept at 2.
    destruct (_parse_single_event fromisoformat e).
    + rewrite <- app_assoc. reflexivity.
    + reflexivity.
Qed.

Lemma parse_events_flat_map (events : list raw_event) :
  _parse_events fromisoformat events = flat_map (kept fromisoformat) events.
Proof. unfold _parse_events. apply parse_loop. Qed.

(** X17. [_parse_events] keeps exactly the events that
    [_parse_single_event] can parse, in their order: it works event by
    event, drops an event that fails and goes on with the next, and so
    never returns more events than it was given. *)
Theorem parse_events_keeps_parsable :
  (forall xs ys,
      _parse_events fromisoformat (xs ++ ys)
      = (_parse_events fromisoformat xs ++ _parse_events fromisoformat ys)%list)
  /\ (forall e,
         _parse_events fromisoformat [e]
         = match _parse_single_event fromisoformat e with
           | Some p => [p]
           | None => []
           end)
  /\ (forall events p,
         In p (_parse_events fromisoformat events)
         <-> exists e, In e events /\ _parse_single_event fromisoformat e = Some p)
  /\ (forall events,
         (List.length (_parse_events fromisoformat events)
          <= List.length events)%nat).
Proof.
  split; [ | split; [ | split]].
  - intros xs ys. rewrite !parse_events_flat_map. apply flat_map_app.
  - intros e. rewrite parse_events_flat_map. cbn [flat_map].
    rewrite app_nil_r. reflexivity.
  - intros events p. rewrite parse_events_flat_map, in_flat_map.
    split; intros (e & Hin & H); exists e; (split; [exact Hin | ]).
    + unfold kept in H.
      destruct (_parse_single_event fromisoformat e) as [q | ]; [ | destruct H].
      destruct H as [-> | []]. reflexivity.
    + unfold kept. rewrite H. left. reflexivity.
  - intros events. rewrite parse_events_flat_map.
    induction events as [ | e events IH]; [apply le_n | ].
    cbn [flat_map]. rewrite length_app. unfold kept at 1.
    destruct (_parse_single_event fromisoformat e); cbn [List.length]; lia.
Qed.

(** X18. What a parsed event says about the event it came from: that
    event has [id], [start] and [end]; the parsed event is all-day
    exactly when [start] has the key [date], whether or not it has
    [dateTime] too; a missing summary reads [No Title], a missing status
    [confirmed], a missing location is the empty text. *)
Theorem parsed_event_fields (e : raw_event) (p : parsed_event) :
  _parse_single_event fromisoformat e = Some p ->
  ev_id e = Some (event_id p)
  /\ (exists start_dict end_dict,
         ev_start e = Some start_dict /\ ev_end e = Some end_dict
         /\ (is_all_day p = true <-> date start_dict <> None))
  /\ title p = match ev_summary e with Some v => v | None => "No Title" end
  /\ status p = match ev_status e with Some v => v | None => "confirmed" end
  /\ location p = match ev_location e with Some v => v | None => "" end.
Proof.
  unfold _parse_single_event, subscript.
  destruct (ev_start e) as [sd | ]; cbn [rbind]; [ | discriminate].
  destruct (ev_end e) as [ed | ]; cbn [rbind]; [ | discriminate].
  destruct (match dateTime sd with Some v => Some v | None => date sd end)
    as [start | ]; cbn [rbind]; [ | discriminate].
  destruct (if Py.contains start "T" then _ else _) as [start_dt | ];
    cbn [rbind]; [ | discriminate].
  destruct (match dateTime ed with Some v => Some v | None => date ed end)
    as [end_ | ]; cbn [rbind]; [ | discriminate].
  destruct (if Py.contains end_ "T" then _ else _) as [end_dt | ];
    cbn [rbind]; [ | discriminate].
  destruct (ev_id e) as [id | ]; cbn [rbind]; [ | discriminate].
  intros H. inversion H; subst p; clear H. cbn.
  split; [reflexivity | ].
  split; [ | repeat split; reflexivity].
  exists sd, ed. split; [reflexivity | ]. split; [reflexivity | ].
  destruct (date sd); split; congruence.
Qed.

Lemma formatted_from_length (i : nat) (events : list parsed_event) :
  List.length (formatted_from location_marker i events) = List.length events.
Proof.
  revert i. induction events as [ | e events IH]; intros i; [reflexivity | ].
  cbn [formatted_from List.length]. rewrite IH. reflexivity.
Qed.

Lemma first_line_starts_with_one (e : parsed_event) :
  exists tl, event_line location_marker 1 e = String "1" tl.
Proof.
  unfold event_line. change (str 1) with "1".
  destruct (location e); eexists; reflexivity.
Qed.

(** X19. The text [No events found.] is the formatting of the empty
    list and of no other list: a list with events gives one line for
    each event, the first of which starts with [1]. *)
Theorem no_events_found_iff_empty (events : list parsed_event) :
  (format_events_for_display location_marker events = "No events found."
   <-> events = [])
  /\ List.length (formatted_from location_marker 1 events)
     = List.length events.
Proof.
  split; [ | apply formatted_from_length].
  split; [ | intros ->; reflexivity].
  destruct events as [ | e events]; [reflexivity | ].
  unfold format_events_for_display. cbn [formatted_from String.concat].
  destruct (first_line_starts_with_one e) as [tl ->].
  destruct (formatted_from location_marker 2 events); discriminate.
Qed.

Lemma startswith_self (a x : string) :
  Py.startswith a a = true /\ Py.startswith (a ++ x) a = true.
Proof.
  split; [ | apply PyFacts.startswith_app].
  induction a as [ | c a IH]; [reflexivity | ].
  cbn [Py.startswith]. rewrite Ascii.eqb_refl. exact IH.
Qed.

(** X20. An all-day event is shown as [All day]: its line does not
    depend on its start time, while the line of any other event is the
    one with the 12-hour clock time of its start. *)
Theorem all_day_line (i : nat) (e : parsed_event) :
  (is_all_day e = true ->
   forall d,
     event_line location_marker i (at_time d e) = event_line location_marker i e
     /\ Py.startswith (event_line location_marker i e)
          (str i ++ ". **" ++ title e ++ "** - " ++ "All day") = true)
  /\ (is_all_day e = false ->
      Py.startswith (event_line location_marker i e)
        (str i ++ ". **" ++ title e ++ "** - "
         ++ strftime_I_M_p (start_datetime e)) = true).
Proof.
  split; intros H.
  - intros d. unfold event_line, at_time. cbn [is_all_day location title].
    rewrite H. cbv iota. split; [reflexivity | ].
    destruct (location e);
      [apply (proj1 (startswith_self _ "")) | apply startswith_self].
  - unfold event_line. rewrite H. cbv iota.
    destruct (location e);
      [apply (proj1 (startswith_self _ "")) | apply startswith_self].
Qed.

End Parsing.

(** The two theorems with a premise, on the samples. *)
Lemma parsed_event_fields_witness :
  exists p,
    _parse_single_event sample_fromisoformat (all_day "e3") = Some p
    /\ is_all_day p = true /\ title p = "No Title" /\ status p = "confirmed".
Proof.
  eexists. split; [vm_compute; reflexivity | ].
  destruct (parsed_event_fields sample_fromisoformat (all_day "e3") _ eq_refl)
    as (_ & (sd & ed & Hs & _ & Hall) & Ht & Hst & _).
  split; [ | split; [exact Ht | exact Hst]].
  apply Hall. inversion Hs. discriminate.
Defined.

Lemma all_day_line_witness :
  event_line "at" 2 (at_time mid_morning parsed_all_day)
  = event_line "at" 2 parsed_all_day
  /\ Py.startswith (event_line "at" 2 parsed_all_day)
       (str 2 ++ ". **" ++ title parsed_all_day ++ "** - " ++ "All day") = true.
Proof.
  apply (all_day_line "at" 2 parsed_all_day). reflexivity.
Defined.

Example parsed_all_day_is_parsed :
  _parse_single_event sample_fromisoformat (all_day "e3") = Some parsed_all_day.
Proof. vm_compute. reflexivity. Qed.

Example parse_and_format_samples :
  format_events_for_display "at"
    (_parse_events sample_fromisoformat sample_items)
  = "1. **Standup** - 02:30 PM (at Room 4)" ++ newline ++ "2. **No Title** - All day".
Proof. vm_compute. reflexivity. Qed.

End EventsFacts.

(** ** Fetching events *)

Module EventQueriesFacts.

Import DateTime DateTimeFacts Calendar Events EventQueries Gateway.
Open Scope Z_scope.
Open Scope result_scope.

Lemma midnight (d : datetime) :
  replace d (Some 0) (Some 0) (Some 0) (Some 0) = Ok (mkDatetime (day d) 0 0 0 0).
Proof. reflexivity. Qed.

Lemma shift_days (d n : Z) :
  shift (mkDatetime d 0 0 0 0) (timedelta_days n) = mkDatetime (d + n) 0 0 0 0.
Proof.
  apply to_us_inj.
  - apply valid_time_shift.
  - unfold valid_time; simpl; lia.
  - rewrite to_us_shift. unfold to_us, timedelta_days, US_PER_DAY; simpl. lia.
Qed.

Lemma add_days (d n : Z) :
  1 <= d + n <= MAXORDINAL ->
  add (mkDatetime d 0 0 0 0) (timedelta_days n) = Ok (mkDatetime (d + n) 0 0 0 0).
Proof.
  intros H. unfold add. rewrite shift_days. unfold in_range; simpl.
  destruct (Z.leb_spec 1 (d + n)); [ | lia].
  destruct (Z.leb_spec (d + n) MAXORDINAL); [reflexivity | lia].
Qed.

Section Queries.

Variable fromisoformat : string -> result datetime.
Variable location_marker : string.

(** X21. The windows of the two schedules. Today's events are asked of
    the primary calendar for the 24 hours from the midnight before [now]
    to the next midnight, at most 50 of them; the week's events for the
    seven days from that same midnight, at most 100 of them: the week is
    the coming seven days, not the calendar week. *)
Theorem day_and_week_windows (c : events_client) (now : datetime) :
  signed_in c = true ->
  valid_time now ->
  1 <= day now -> day now + 7 <= MAXORDINAL ->
  let today := mkDatetime (day now) 0 0 0 0 in
  to_us today <= to_us now < to_us today + US_PER_DAY
  /\ get_todays_events fromisoformat c now
     = except_http
         (events <- events_list c "primary" today
                      (Some (mkDatetime (day now + 1) 0 0 0 0)) 50 None ;;
          Ok (_parse_events fromisoformat events))
  /\ get_weekly_events fromisoformat c now
     = except_http
         (events <- events_list c "primary" today
                      (Some (mkDatetime (day now + 7) 0 0 0 0)) 100 None ;;
          Ok (_parse_events fromisoformat events)).
Proof.
  intros S V Lo Hi today. split; [ | split].
  - destruct now as [dy h m s u].
    unfold valid_time, to_us, US_PER_DAY, today in *; simpl in *. lia.
  - unfold get_todays_events, get_events_for_date.
    rewrite midnight. cbn [rbind]. rewrite S. cbn [negb].
    rewrite midnight. cbn [rbind day].
    rewrite add_days by lia. reflexivity.
  - unfold get_weekly_events, get_events_for_date_range.
    rewrite midnight. cbn [rbind].
    rewrite add_days by lia. cbn [rbind]. rewrite S. reflexivity.
Qed.

(** X22. [get_upcoming_events] does not read the primary calendar: its
    result is fixed by what the provider lists for the holiday calendar,
    so two providers that list the same there give the same upcoming
    events, whatever the user's own calendar holds. *)
Theorem upcoming_ignores_primary (c c' : events_client) (utc_now : datetime)
    (max_results : Z) :
  base c = base c' ->
  (forall time_min time_max n q,
      events_list c HOLIDAY_CALENDAR time_min time_max n q
      = events_list c' HOLIDAY_CALENDAR time_min time_max n q) ->
  get_upcoming_events fromisoformat c utc_now max_results
  = get_upcoming_events fromisoformat c' utc_now max_results.
Proof.
  intros Hb Hl. unfold get_upcoming_events, signed_in. rewrite Hb, Hl.
  reflexivity.
Qed.

(** X23. A failure of the provider does not show in the chat. When the
    listing of today's events raises for a signed-in client, a text with
    [today] still gets today's schedule: with [No events found.] after an
    [HttpError], which the client turns into an empty list, and with
    [No events found for today] after any other exception, which the
    tool turns into a dict without [formatted_output]. *)
Theorem provider_failure_shown_as_no_events
    (c : events_client) (others : App.gateway) (utc_now : datetime)
    (x : exn) (t : string) :
  let now := App.now others in
  signed_in c = true ->
  1 <= day now -> day now + 1 <= MAXORDINAL ->
  events_list c "primary" (mkDatetime (day now) 0 0 0 0)
    (Some (mkDatetime (day now + 1) 0 0 0 0)) 50 None = Raise x ->
  Py.any (Py.contains (Py.strip (Py.lower t))) ["today"; "today's"; "todays"]
  = true ->
  run (App.process_calendar_query
         (with_tools fromisoformat location_marker c others utc_now) t)
  = (Ok (App.TodaysSchedule
           (if is_http_error x then "No events found."
            else "No events found for today")),
     [CalTodaysEvents]).
Proof.
  intros now S Lo Hi Q Ht.
  unfold run, App.process_calendar_query. rewrite Ht.
  cbv beta iota delta [run bind ret try_except invoke lift raise].
  unfold with_tools. cbn [App.get_todays_events].
  unfold tool_get_todays_events, tool. rewrite S. cbn [negb].
  unfold get_todays_events, get_events_for_date. fold now.
  rewrite midnight. cbn [rbind]. rewrite S. cbn [negb].
  rewrite midnight. cbn [rbind day].
  rewrite add_days by lia. cbn [rbind]. rewrite Q. cbn [rbind except_http].
  destruct (is_http_error x); reflexivity.
Qed.

End Queries.

Lemma day_and_week_windows_witness :
  get_todays_events sample_fromisoformat provider_with_events mid_morning
  = Ok (_parse_events sample_fromisoformat sample_items).
Proof.
  apply (day_and_week_windows sample_fromisoformat provider_with_events
           mid_morning); try reflexivity.
  - unfold valid_time; simpl; lia.
  - simpl; lia.
  - unfold MAXORDINAL; simpl; lia.
Defined.

Lemma upcoming_ignores_primary_witness :
  get_upcoming_events sample_fromisoformat provider_with_events mid_morning 10
  = get_upcoming_events sample_fromisoformat provider_other_primary mid_morning 10.
Proof.
  apply upcoming_ignores_primary; reflexivity.
Defined.

Lemma provider_failure_shown_as_no_events_witness :
  run (App.process_calendar_query
         (with_tools sample_fromisoformat "at" provider_http_error
            (App.services App.mem0_up) mid_morning)
         "What's on today?")
  = (Ok (App.TodaysSchedule "No events found."), [CalTodaysEvents]).
Proof.
  apply (provider_failure_shown_as_no_events sample_fromisoformat "at"
           provider_http_error (App.services App.mem0_up) mid_morning
           (Exn HttpError "503") "What's on today?"); try reflexivity.
  - simpl; lia.
  - unfold MAXORDINAL; simpl; lia.
Defined.

End EventQueriesFacts.

(** ** Session state and chat history *)

Module SessionFacts.

Import DateTime Gateway Memory Session.

(** X24. [initialize_session_state] sets what is missing and nothing
    else. Run again with the same outcome of the constructor it changes
    nothing, so the reruns of the script do not reset the session; the
    chat history, the user id and the authentication flag that are set
    keep their values; and after it every key that the handlers read is
    set, when the state did not hold a manager without its flag. *)
Theorem initialize_session_state_settles (construct : result memory_client)
    (s : session_state) :
  (memory_manager s <> None -> memory_available s <> None) ->
  initialize_session_state construct (initialize_session_state construct s)
  = initialize_session_state construct s
  /\ readable (initialize_session_state construct s)
  /\ (forall h, chat_history s = Some h ->
                chat_history (initialize_session_state construct s) = Some h)
  /\ (forall u, user_id s = Some u ->
                user_id (initialize_session_state construct s) = Some u)
  /\ (forall b, calendar_authenticated s = Some b ->
                calendar_authenticated (initialize_session_state construct s)
                = Some b).
Proof.
  intros W. destruct s as [mm ma me ch ca ui uid]. cbn in W.
  unfold initialize_session_state, readable. cbn.
  destruct mm as [m | ].
  - assert (ma <> None) by (apply W; discriminate).
    destruct ma as [b | ]; [ | contradiction].
    destruct ch, ca, ui, uid; cbn;
      repeat split; try discriminate; try (intros ? E; exact E).
  - destruct construct as [m | e]; cbn;
      destruct ch, ca, ui, uid; cbn;
      repeat split; try discriminate; try (intros ? E; exact E).
Qed.

Lemma initialize_session_state_settles_witness :
  readable (initialize_session_state (Ok App.mem0_up) empty_state)
  /\ user_id (initialize_session_state (Ok App.mem0_up) empty_state)
     = Some "student_001"
  /\ initialize_session_state (Raise (Exn ValueError "no key"))
       (initialize_session_state (Raise (Exn ValueError "no key")) empty_state)
     = initialize_session_state (Raise (Exn ValueError "no key")) empty_state.
Proof.
  split; [ | split].
  - apply (initialize_session_state_settles (Ok App.mem0_up) empty_state).
    intros H. exfalso. apply H. reflexivity.
  - reflexivity.
  - apply (initialize_session_state_settles
             (Raise (Exn ValueError "no key")) empty_state).
    intros H. exfalso. apply H. reflexivity.
Defined.

(** X25. A command that is sent adds two entries to the chat history,
    the text as typed and then the reply of the router, after all the
    entries that were there; the services are called as the router calls
    them. Without the button, or with an empty text, the history stays
    as it is and nothing is called. *)
Theorem send_appends_two_entries (gw : App.gateway) (st : App.session)
    (user_input : string) (t1 t2 : datetime) (history : list chat)
    (log : list call) :
  (user_input <> EmptyString ->
   exists (response : App.reply) (calls : list call),
     App.process_user_input gw st user_input log
     = (Ok response, (log ++ calls)%list)
     /\ send gw st true user_input t1 t2 history log
        = (Ok (history
               ++ [ {| user := User; message := Typed user_input;
                       timestamp := t1 |};
                    {| user := Assistant; message := Response response;
                       timestamp := t2 |} ])%list,
           (log ++ calls)%list))
  /\ send gw st true EmptyString t1 t2 history log = (Ok history, log)
  /\ send gw st false user_input t1 t2 history log = (Ok history, log).
Proof.
  split; [ | split; reflexivity].
  intros Hne.
  destruct (RouterExtras.router_calls gw st user_input log)
    as (r & calls & E & _).
  exists r, calls. split; [exact E | ].
  unfold send. destruct user_input as [ | c u]; [contradiction | ].
  cbn [andb App.nonempty]. unfold bind, ret. rewrite E.
  rewrite <- app_assoc. reflexivity.
Qed.

Lemma send_appends_two_entries_witness :
  send (App.services App.mem0_up) App.student true "hi"
    Calendar.mid_morning Calendar.late_evening (greetings 1) []
  = (Ok (greetings 1
         ++ [ {| user := User; message := Typed "hi";
                 timestamp := Calendar.mid_morning |};
              {| user := Assistant; message := Response App.Greeting;
                 timestamp := Calendar.late_evening |} ])%list,
     []).
Proof.
  destruct (send_appends_two_entries (App.services App.mem0_up) App.student
              "hi" Calendar.mid_morning Calendar.late_evening (greetings 1) [])
    as [H _].
  destruct (H ltac:(discriminate)) as (r & calls & E & S).
  vm_compute in E. inversion E; subst r.
  rewrite S. f_equal.
  match goal with H0 : [] = _ |- _ => rewrite <- H0 end. reflexivity.
Defined.

Lemma last_skipn {A} (n : nat) (l : list A) (d : A) :
  (n < List.length l)%nat -> last (skipn n l) d = last l d.
Proof.
  revert l. induction n as [ | n IH]; intros l H; [reflexivity | ].
  destruct l as [ | a l]; [cbn in H; lia | ].
  cbn [skipn]. cbn [List.length] in H. rewrite IH by lia.
  destruct l as [ | b l]; [cbn in H; lia | reflexivity].
Qed.

(** X26. The chat shows the last 20 entries of the history, all of them
    when there are fewer: what is displayed is the end of the history,
    in order, and the newest entry is always among it. *)
Theorem displayed_is_last_twenty (history : list chat) :
  (exists hidden, history = (hidden ++ displayed history)%list)
  /\ List.length (displayed history) = Nat.min 20 (List.length history)
  /\ (history <> [] ->
      forall d, last (displayed history) d = last history d).
Proof.
  unfold displayed. split; [ | split].
  - exists (firstn (List.length history - 20) history).
    symmetry. apply firstn_skipn.
  - rewrite length_skipn. lia.
  - intros Hne d. apply last_skipn.
    destruct history; [contradiction | cbn [List.length]; lia].
Qed.

Lemma displayed_is_last_twenty_witness :
  List.length (displayed (greetings 25)) = 20%nat
  /\ last (displayed (greetings 25))
          {| user := Assistant; message := NoMemoriesStoredYet;
             timestamp := Calendar.late_evening |}
     = {| user := User; message := Typed "hi";
          timestamp := Calendar.mid_morning |}.
Proof.
  destruct (displayed_is_last_twenty (greetings 25)) as (_ & L & H).
  split; [exact L | ].
  rewrite H by discriminate. reflexivity.
Defined.

(** X27. The button [View Memories] is not guarded: when the mem0
    client raises, [get_memories] hands back the empty list, the
    subscript [results] raises [TypeError], and nothing catches it; the
    same failure typed as [my memories] ends in a reply. *)
Theorem view_memories_unguarded (gw : App.gateway) (st : App.session)
    (t1 : datetime) (history : list chat) (log : list call) (e : exn) :
  client_get_all (App.mem0 gw) (App.user_id st) 10 0 = Raise e ->
  view_memories gw st t1 history log
  = (Raise (Exn TypeError "list indices must be integers or slices, not str"),
     (log ++ [MemGetAll (App.user_id st) 10 0])%list).
Proof.
  intros He. unfold view_memories, get_memories.
  cbv beta iota delta [bind ret try_except invoke lift raise].
  rewrite He. reflexivity.
Qed.

Lemma view_memories_unguarded_witness :
  view_memories (App.services App.mem0_down) App.student Calendar.mid_morning
    [] []
  = (Raise (Exn TypeError "list indices must be integers or slices, not str"),
     [MemGetAll "student_001" 10 0]).
Proof.
  apply (view_memories_unguarded (App.services App.mem0_down) App.student
           Calendar.mid_morning [] []
           (Exn OtherError "connection refused")).
  reflexivity.
Defined.

End SessionFacts.
